(** * Greenwave resources: retrieval, caching and build provenance

    A shallow embedding of [greenwave/resources.py] and the properties of
    its retrievers, of the Koji provenance resolver and of the remote rule
    fetcher.

    Python [str] values are modelled as [string] (the UTF-8 bytes of the
    text): every separator the code looks for is an ASCII character, and
    byte-wise lexicographic order on UTF-8 is code point order, so
    splitting and [<] on [str] carry over unchanged.  Exceptions are the
    [Raise] branch of [Outcome]; code that talks to other services runs in
    a state-and-exception monad whose state records the requests issued. *)

From Stdlib Require Import ZArith Ascii String List Bool Lia.
From stdpp Require Import base option list gmap strings fin_maps.

#[local] Set Warnings "-clear-no-such-hyp".

Local Open Scope Z_scope.
Local Open Scope stdpp_scope.

(* ===================================================================== *)
(** * Exceptions and outcomes *)
(* ===================================================================== *)

(** The exception classes that can leave the functions of the module. *)
Inductive exn : Type :=
| NoSourceException (msg : string)   (* greenwave.resources.NoSourceException *)
| BadGateway (msg : string)          (* werkzeug.exceptions.BadGateway *)
| NotFound (msg : string)            (* werkzeug.exceptions.NotFound *)
| HTTPError (status : Z)             (* requests: Response.raise_for_status *)
| ValueError                         (* urllib.parse on a malformed netloc *)
| IndexError                         (* sequence index out of range *)
| DecodeError                        (* Response.json() / missing data key *)
| TransportError (msg : string).     (* connection failure of requests/xmlrpc *)

Inductive Outcome (A : Type) : Type :=
| Ok (a : A)
| Raise (e : exn).
Arguments Ok {A} a.
Arguments Raise {A} e.

#[global] Instance Outcome_ret : MRet Outcome := fun A a => Ok a.
#[global] Instance Outcome_bind : MBind Outcome := fun A B f m =>
  match m with
  | Ok a => f a
  | Raise e => Raise e
  end.

Definition raises_NoSource {A} (r : Outcome A) : Prop :=
  ∃ msg, r = Raise (NoSourceException msg).
Definition raises_BadGateway {A} (r : Outcome A) : Prop :=
  ∃ msg, r = Raise (BadGateway msg).
Definition returns {A} (r : Outcome A) : Prop := ∃ a, r = Ok a.

(* ===================================================================== *)
(** * Python built-ins used by the module *)
(* ===================================================================== *)

Module Py.

(** Truth value of an optional [str]: [None] and the empty string are
    false. *)
Definition truthy_str (s : string) : bool := negb (String.eqb s "").
Definition truthy (o : option string) : bool :=
  match o with
  | None => false
  | Some s => truthy_str s
  end.

(** The double quote character, for the message templates. *)
Definition dq : string := String (ascii_of_nat 34) "".
(** The line feed character. *)
Definition lf : string := String (ascii_of_nat 10) "".

(** Prepend a character to the first item of a list of pieces. *)
Definition push_head (c : ascii) (l : list string) : list string :=
  match l with
  | h :: t => String c h :: t
  | [] => [String c ""]
  end.

(** [s.split(sep)] for a one-character separator: the string is cut at
    every occurrence; the result is never empty. *)
Fixpoint split (sep : ascii) (s : string) : list string :=
  match s with
  | EmptyString => [""]
  | String c s' =>
      if Ascii.eqb c sep then "" :: split sep s'
      else push_head c (split sep s')
  end.

(** [s.rsplit(sep, maxsplit)]: at most [maxsplit] cuts are made, the
    rightmost ones.  Going through the string from its end, a separator
    is a cut as long as fewer than [maxsplit] cuts lie to its right (the
    pieces found so far are one more than the cuts). *)
Fixpoint rsplit (sep : ascii) (maxsplit : nat) (s : string) : list string :=
  match s with
  | EmptyString => [""]
  | String c s' =>
      let pieces := rsplit sep maxsplit s' in
      if Ascii.eqb c sep && (length pieces <=? maxsplit)%nat
      then "" :: pieces
      else push_head c pieces
  end.

(** [s.split(sep, 1)] when [sep in s]: the text before and after the first
    occurrence; [None] when the separator does not occur. *)
Fixpoint partition (sep : ascii) (s : string) : option (string * string) :=
  match s with
  | EmptyString => None
  | String c s' =>
      if Ascii.eqb c sep then Some ("", s')
      else match partition sep s' with
           | Some (a, b) => Some (String c a, b)
           | None => None
           end
  end.

(** [c in s] for a character. *)
Fixpoint contains (c : ascii) (s : string) : bool :=
  match s with
  | EmptyString => false
  | String d s' => Ascii.eqb d c || contains c s'
  end.

(** [l[-k]] for [k >= 1]: the [k]-th item from the end, [IndexError] when
    the list is shorter. *)
Definition getitem_neg {A} (l : list A) (k : nat) : Outcome A :=
  if (k <=? length l)%nat
  then match l !! (length l - k)%nat with
       | Some x => Ok x
       | None => Raise IndexError
       end
  else Raise IndexError.

(** [l[i]] for [i >= 0]. *)
Definition getitem {A} (l : list A) (i : nat) : Outcome A :=
  match l !! i with
  | Some x => Ok x
  | None => Raise IndexError
  end.

(** [s.endswith(suffix)] and the text of [s] before a suffix of the given
    length. *)
Definition endswith (suffix s : string) : bool :=
  (String.length suffix <=? String.length s)%nat &&
  String.eqb
    (String.substring (String.length s - String.length suffix)
       (String.length suffix) s)
    suffix.
Definition drop_right (n : nat) (s : string) : string :=
  String.substring 0 (String.length s - n) s.

(** [re.sub(r'\.git$', '', s)].  Without [re.MULTILINE], the anchor
    matches at the end of the string and also just before a line feed
    that is the last character.  The two places exclude each other, so at
    most one occurrence is replaced. *)
Definition re_sub_dot_git (s : string) : string :=
  if endswith ".git" s then drop_right 4 s
  else if endswith (".git" +:+ lf) s then drop_right 5 s +:+ lf
  else s.

(** [s1 < s2] on [str]. *)
Definition str_lt (s1 s2 : string) : bool := String.ltb s1 s2.

End Py.

(* ===================================================================== *)
(** * urllib.parse.urlparse *)
(* ===================================================================== *)

(** The six fields of [urllib.parse.ParseResult]. *)
Record ParseResult : Type := {
  scheme : string;
  netloc : string;
  path : string;
  params : string;
  query : string;
  fragment : string
}.

(** The standard library is not part of the repository: the provenance
    parser below takes [urlparse] as a parameter ([None] stands for the
    [ValueError] of a malformed netloc).  [urllib_parse.urlparse] is a model
    of the library function for [str] input, after CPython 3.10, used for
    the concrete URLs; the Unicode normalisation check that the library runs
    on a non-ASCII netloc is left out. *)
Module urllib_parse.

Definition is_alpha (c : ascii) : bool :=
  let n := nat_of_ascii c in
  ((65 <=? n) && (n <=? 90) || (97 <=? n) && (n <=? 122))%nat.
Definition is_digit (c : ascii) : bool :=
  let n := nat_of_ascii c in ((48 <=? n) && (n <=? 57))%nat.

(** [c in scheme_chars]: letters, digits and [+-.]. *)
Definition scheme_char (c : ascii) : bool :=
  is_alpha c || is_digit c
  || Ascii.eqb c "+" || Ascii.eqb c "-" || Ascii.eqb c ".".

Definition lower_char (c : ascii) : ascii :=
  let n := nat_of_ascii c in
  if ((65 <=? n) && (n <=? 90))%nat then ascii_of_nat (n + 32) else c.
Fixpoint lower (s : string) : string :=
  match s with
  | EmptyString => ""
  | String c s' => String (lower_char c) (lower s')
  end.

Fixpoint all_chars (p : ascii → bool) (s : string) : bool :=
  match s with
  | EmptyString => true
  | String c s' => p c && all_chars p s'
  end.

(** [url.replace(b, "")] for each of tab, carriage return, line feed. *)
Definition unsafe_char (c : ascii) : bool :=
  let n := nat_of_ascii c in ((n =? 9) || (n =? 13) || (n =? 10))%nat.
Fixpoint remove_unsafe (s : string) : string :=
  match s with
  | EmptyString => ""
  | String c s' =>
      if unsafe_char c then remove_unsafe s' else String c (remove_unsafe s')
  end.

(** [_splitnetloc(url, 2)] on the text after the two slashes: the netloc
    runs up to the first of [/], [?], [#]. *)
Fixpoint splitnetloc (s : string) : string * string :=
  match s with
  | EmptyString => ("", "")
  | String c s' =>
      if Ascii.eqb c "/" || Ascii.eqb c "?" || Ascii.eqb c "#"
      then ("", s)
      else let '(n, r) := splitnetloc s' in (String c n, r)
  end.

Definition uses_params : list string :=
  [""; "ftp"; "hdl"; "prospero"; "http"; "imap"; "https"; "shttp"; "rtsp";
   "rtspu"; "sip"; "sips"; "mms"; "sftp"; "tel"].

(** [_splitparams(url)]: the parameters start at the first [;] of the
    last path segment. *)
Definition splitparams (url : string) : string * string :=
  match rev (Py.split "/" url) with
  | last :: before =>
      match Py.partition ";" last with
      | Some (a, b) =>
          (fold_right (fun seg acc => seg +:+ "/" +:+ acc) a (rev before), b)
      | None => (url, "")
      end
  | [] => (url, "")
  end.

Definition urlsplit (url : string)
  : option (string * string * string * string * string) :=
  let url := remove_unsafe url in
  let '(scheme, url) :=
    match Py.partition ":" url with
    | Some (String c s, rest) =>
        if all_chars scheme_char (String c s)
        then (lower (String c s), rest) else ("", url)
    | _ => ("", url)
    end in
  let '(netloc, url) :=
    match url with
    | String "/" (String "/" rest) => splitnetloc rest
    | _ => ("", url)
    end in
  if (Py.contains "[" netloc && negb (Py.contains "]" netloc))
     || (Py.contains "]" netloc && negb (Py.contains "[" netloc))
  then None
  else
    let '(url, fragment) :=
      match Py.partition "#" url with
      | Some (a, b) => (a, b)
      | None => (url, "")
      end in
    let '(url, query) :=
      match Py.partition "?" url with
      | Some (a, b) => (a, b)
      | None => (url, "")
      end in
    Some (scheme, netloc, url, query, fragment).

Definition urlparse (url : string) : option ParseResult :=
  match urlsplit url with
  | None => None
  | Some (scheme, netloc, url, query, fragment) =>
      let '(url, params) :=
        if bool_decide (scheme ∈ uses_params) && Py.contains ";" url
        then splitparams url else (url, "") in
      Some {| scheme := scheme; netloc := netloc; path := url;
              params := params; query := query; fragment := fragment |}
  end.

End urllib_parse.

(* ===================================================================== *)
(** * Build provenance resolver *)
(* ===================================================================== *)

Definition no_source_message (nvr koji_url : string) : string :=
  "Failed to retrieve SCM URL from Koji build " +:+ Py.dq +:+ nvr +:+ Py.dq
  +:+ " at " +:+ Py.dq +:+ koji_url +:+ Py.dq
  +:+ " (expected SCM URL in " +:+ Py.dq +:+ "source" +:+ Py.dq
  +:+ " attribute)".

Definition missing_fragment_message (source nvr koji_url : string) : string :=
  "Failed to parse SCM URL " +:+ Py.dq +:+ source +:+ Py.dq
  +:+ " from Koji build " +:+ Py.dq +:+ nvr +:+ Py.dq
  +:+ " at " +:+ Py.dq +:+ koji_url +:+ Py.dq
  +:+ " (missing URL fragment with SCM revision information)".

Section Provenance.

(** [urllib.parse.urlparse]; [None] is its [ValueError]. *)
Variable urlparse : string → option ParseResult.

(** [retrieve_scm_from_koji_build(nvr, source, koji_url)]; [source] is
    [None] when the build record has no source. *)
Definition retrieve_scm_from_koji_build
    (nvr : string) (source : option string) (koji_url : string)
  : Outcome (string * string * string) :=
  if negb (Py.truthy source)
  then Raise (NoSourceException (no_source_message nvr koji_url))
  else
    let source := default "" source in
    match urlparse source with
    | None => Raise ValueError
    | Some url =>
        let path_components := Py.rsplit "/" 2 (path url) in
        namespace ←
          (if (length path_components <? 3)%nat then Ok ""
           else Py.getitem_neg path_components 2);
        let rev := fragment url in
        if negb (Py.truthy_str rev)
        then Raise (BadGateway (missing_fragment_message source nvr koji_url))
        else
          pkg_name ← Py.getitem_neg (Py.split "/" (path url)) 1;
          let pkg_name := Py.re_sub_dot_git pkg_name in
          Ok (namespace, pkg_name, rev)
    end.

End Provenance.

(** The provenance tuple in the words of the specification. *)
Module ProvenanceSpec.

(** Second-to-last path segment if the path has at least three segments
    after splitting on the slash, else the empty string. *)
Definition namespace (path : string) : string :=
  let segments := Py.split "/" path in
  if (3 <=? length segments)%nat
  then default "" (segments !! (length segments - 2)%nat)
  else "".

(** The last path segment. *)
Definition last_segment (path : string) : string :=
  List.last (Py.split "/" path) "".

(** The segment with a trailing literal [.git] removed. *)
Definition strip_dot_git (segment : string) : string :=
  if Py.endswith ".git" segment then Py.drop_right 4 segment else segment.

Definition package_name (path : string) : string :=
  strip_dot_git (last_segment path).

End ProvenanceSpec.

(** The value that [getTaskRequest] hands back, as [xmlrpc.client]
    decodes it. *)
#[warnings="-register-all"]
Inductive xmlrpc_value : Type :=
| XNone
| XBool (b : bool)
| XInt (n : Z)
| XDouble (repr : string)
| XStr (s : string)
| XDateTime (iso : string)
| XBinary (data : string)
| XList (items : list xmlrpc_value)
| XStruct (fields : list (string * xmlrpc_value)).

Section Koji.

(** The connect/read timeout setting is only passed on. *)
Variable Timeout : Type.
(** [current_app.config['REQUESTS_TIMEOUT']]: one value or a pair. *)
Variable REQUESTS_TIMEOUT : Timeout + Timeout * Timeout.

Definition _requests_timeout : Timeout :=
  match REQUESTS_TIMEOUT with
  | inr timeout => timeout.2
  | inl timeout => timeout
  end.

(** [get_server_proxy(koji_url, timeout).getTaskRequest]: the remote call
    answers with a value or fails. *)
Variable getTaskRequest :
  string → Timeout → string → Outcome xmlrpc_value.

(** [retrieve_koji_build_target(nvr, koji_url)], the body under the
    memoising decorator. *)
Definition retrieve_koji_build_target (nvr koji_url : string)
  : Outcome (option string) :=
  task_request ← getTaskRequest koji_url _requests_timeout nvr;
  match task_request with
  | XList items =>
      if (1 <? length items)%nat then
        target ← Py.getitem items 1;
        match target with
        | XStr target => Ok (Some target)
        | _ => Ok None
        end
      else Ok None
  | _ => Ok None
  end.

End Koji.

(* ===================================================================== *)
(** * State and exceptions *)
(* ===================================================================== *)

(** A computation that reads and changes a state of type [S] and returns
    or raises; the state reached when an exception is raised is kept. *)
Definition M (S A : Type) : Type := S → Outcome A * S.

#[global] Instance M_ret {S} : MRet (M S) := fun A a s => (Ok a, s).
#[global] Instance M_bind {S} : MBind (M S) := fun A B f m s =>
  match m s with
  | (Ok a, s') => f a s'
  | (Raise e, s') => (Raise e, s')
  end.

Definition raise {S A} (e : exn) : M S A := fun s => (Raise e, s).
Definition gets {S A} (f : S → A) : M S A := fun s => (Ok (f s), s).
Definition modify {S} (f : S → S) : M S unit := fun s => (Ok tt, f s).
Definition lift {S A} (r : Outcome A) : M S A := fun s => (r, s).

(* ===================================================================== *)
(** * HTTP responses *)
(* ===================================================================== *)

Record Response (B : Type) : Type := {
  status_code : Z;
  body : B
}.
Arguments status_code {B} _.
Arguments body {B} _.

(** [response.raise_for_status()]: client and server error statuses
    raise. *)
Definition raise_for_status {S B} (response : Response B) : M S unit :=
  if (400 <=? status_code response) && (status_code response <? 600)
  then raise (HTTPError (status_code response))
  else mret tt.

(** [response.json()['data']]; the body is [None] when it is not a JSON
    object with that key. *)
Definition json_data {S A} (response : Response (option A)) : M S A :=
  match body response with
  | Some data => mret data
  | None => raise DecodeError
  end.

(* ===================================================================== *)
(** * Remote policy fetcher *)
(* ===================================================================== *)

Inductive Method : Type := HEAD | GET.

Section RemoteRule.

(** The web server of the repository: its answer to a request, or a
    transport failure. *)
Variable web : Method → string → Outcome (Response string).

(** [requests_session.request(method, url)]; the state is the list of the
    requests issued, oldest first. *)
Definition request (method : Method) (url : string)
  : M (list (Method * string)) (Response string) :=
  _ ← modify (fun log => log ++ [(method, url)]);
  lift (web method url).

(** [retrieve_yaml_remote_rule(url)], the body under the memoising
    decorator; [None] is Python's [None]. *)
Definition retrieve_yaml_remote_rule (url : string)
  : M (list (Method * string)) (option string) :=
  response ← request HEAD url;
  if status_code response =? 404 then mret None
  else if negb (status_code response =? 200) then
    raise (BadGateway
      "Error occurred while retrieving a remote rule file from the repo.")
  else
    response ← request GET url;
    _ ← raise_for_status response;
    mret (Some (body response)).

End RemoteRule.

(* ===================================================================== *)
(** * Data model of the retrievers *)
(* ===================================================================== *)

(** A result of ResultsDB: the keys the module reads, and the rest of the
    mapping. *)
Record Result : Type := {
  result_id : Z;                          (* result['id'] *)
  testcase_name : string;                 (* result['testcase']['name'] *)
  outcome : option string;                (* result.get('outcome') *)
  submit_time : string;                   (* result['submit_time'] *)
  result_rest : list (string * string)
}.

(** A waiver of WaiverDB. *)
Record Waiver : Type := {
  waiver_id : Z;                          (* waiver['id'] *)
  waived : bool;                          (* waiver['waived'] *)
  waiver_rest : list (string * string)
}.

#[global] Instance Result_eq_dec : EqDecision Result.
Proof. solve_decision. Defined.
#[global] Instance Waiver_eq_dec : EqDecision Waiver.
Proof. solve_decision. Defined.

(** [item['id']] *)
Class Item (A : Type) := item_id : A → Z.
#[global] Instance Result_item : Item Result := result_id.
#[global] Instance Waiver_item : Item Waiver := waiver_id.

(** A subject; [result_queries] lists the query mappings that
    [subject.result_queries()] produces, fresh ones at every call. *)
Record Subject : Type := {
  type : string;
  identifier : string;
  result_queries : list (gmap string string)
}.

(** The attributes that [BaseRetriever.__init__] sets. *)
Record Retriever : Type := {
  ignore_ids : list Z;
  url : string;
  since : option string
}.

Module BaseRetriever.

(** [__init__(self, ignore_ids, when, url)] *)
Definition __init__ (ignore_ids : list Z) (when : option string) (url : string)
  : Retriever :=
  {| ignore_ids := ignore_ids;
     url := url;
     since := if Py.truthy when
              then Some ("1900-01-01T00:00:00.000000," +:+ default "" when)
              else None |}.

Section Methods.
Context {S Args Params A : Type} `{Item A}.

(** The methods that the subclasses provide. *)
Variable _retrieve_all : Retriever → Args → M S (list A).
Variable _make_request :
  Retriever → Params → M S (Response (option (list A))).

Definition retrieve (self : Retriever) (args : Args) : M S (list A) :=
  items ← _retrieve_all self args;
  mret (filter (fun item => item_id item ∉ ignore_ids self) items).

Definition _retrieve_data (self : Retriever) (params : Params)
  : M S (list A) :=
  response ← _make_request self params;
  _ ← raise_for_status response;
  json_data response.

End Methods.

End BaseRetriever.

(** Modelled from the spec: the cache facade behind [current_app.cache]
    (set up outside this module), a uniform get/set over a pluggable
    backend.  [cache_get] answers [None] where the backend has no value for
    the key. *)
Class ExternalCache (C : Type) : Type := {
  cache_get : C → string → option (list Result);
  cache_set : C → string → list Result → C
}.

(** Modelled from the spec: the in-memory backend keeps what was set. *)
#[global] Instance memory_backend : ExternalCache (gmap string (list Result)) := {|
  cache_get c key := c !! key;
  cache_set c key value := <[key := value]> c
|}.

(** Modelled from the spec: the null backend, the default of the
    configuration, keeps nothing. *)
#[global] Instance null_backend : ExternalCache unit := {|
  cache_get _ _ := None;
  cache_set c _ _ := c
|}.

Module ResultsRetriever.

Section WithServices.
Context {C : Type} `{ExternalCache C}.

(** [current_app.config['OUTCOMES_PASSED']] *)
Variable OUTCOMES_PASSED : list string.

(** ResultsDB: its answer to a GET with the given parameters, or a
    transport failure. *)
Variable resultsdb :
  string → gmap string string → Outcome (Response (option (list Result))).

(** What a call can read and change: [self.cache], the external cache,
    and the records of the GET requests issued and of the entries
    written to the external cache, oldest first. *)
Record World : Type := {
  cache : gmap (string * string) (list Result);
  external : C;
  requests : list (string * gmap string string);
  writes : list (string * list Result)
}.

(** The state after [__init__]: [self.cache = {}]. *)
Definition init_world (c : C) : World :=
  {| cache := ∅; external := c; requests := []; writes := [] |}.

Definition _make_request (self : Retriever) (params : gmap string string)
  : M World (Response (option (list Result))) :=
  let target := url self +:+ "/results/latest" in
  _ ← modify (fun w =>
        {| cache := cache w; external := external w;
           requests := requests w ++ [(target, params)];
           writes := writes w |});
  lift (resultsdb target params).

Definition _retrieve_data := BaseRetriever._retrieve_data _make_request.

Definition get_external_cache (key : string)
  : M World (option (list Result)) :=
  gets (fun w => cache_get (external w) key).

Definition set_external_cache (key : string) (value : list Result)
  : M World unit :=
  modify (fun w =>
    {| cache := cache w;
       external := cache_set (external w) key value;
       requests := requests w;
       writes := writes w ++ [(key, value)] |}).

Definition _results_match_time (self : Retriever) (results : list Result)
  : Outcome bool :=
  if negb (Py.truthy (since self)) then Ok true
  else
    until ← Py.getitem (Py.split "," (default "" (since self))) 1;
    Ok (forallb (fun result => Py.str_lt (submit_time result) until)
          results).

(** [result.get('outcome') in current_app.config['OUTCOMES_PASSED']] *)
Definition passed (result : Result) : bool :=
  match outcome result with
  | Some o => bool_decide (o ∈ OUTCOMES_PASSED)
  | None => false
  end.

(** The loop over [subject.result_queries()]. *)
Fixpoint fetch_queries (self : Retriever) (params : gmap string string)
    (queries : list (gmap string string)) (results : list Result)
  : M World (list Result) :=
  match queries with
  | [] => mret results
  | query :: queries =>
      let query := params ∪ query in          (* query.update(params) *)
      data ← _retrieve_data self query;
      fetch_queries self params queries (results ++ data)
  end.

Definition query_params (self : Retriever) (testcase : option string)
  : gmap string string :=
  let params : gmap string string :=
    {[ "_distinct_on" := "scenario,system_architecture,system_variant" ]} in
  let params :=
    if Py.truthy (since self)
    then <["since" := default "" (since self)]> params else params in
  if Py.truthy testcase
  then <["testcases" := default "" testcase]> params else params.

(** The part of [_retrieve_all] after the two cache lookups: the query
    to ResultsDB and the two stores. *)
Definition _query_upstream (self : Retriever) (subject : Subject)
    (testcase external_cache_key : option string)
  : M World (list Result) :=
  let cache_key := (type subject, identifier subject) in
  let params := query_params self testcase in
  results ← fetch_queries self params (result_queries subject) [];
  _ ← (if negb (Py.truthy testcase)
       then modify (fun w =>
              {| cache := <[cache_key := results]> (cache w);
                 external := external w;
                 requests := requests w;
                 writes := writes w |})
       else mret tt);
  _ ← (if Py.truthy external_cache_key && forallb passed results
       then set_external_cache (default "" external_cache_key) results
       else mret tt);
  mret results.

Definition external_key (subject : Subject) (testcase : string) : string :=
  "greenwave.resources:ResultsRetriever|"
  +:+ type subject +:+ " " +:+ identifier subject +:+ " " +:+ testcase.

(** The truth value of what the external cache answered: no value and
    the empty list are both false. *)
Definition truthy_results (results : option (list Result)) : bool :=
  match results with
  | Some (_ :: _) => true
  | _ => false
  end.

(** [_retrieve_all(self, subject, testcase=None)] *)
Definition _retrieve_all (self : Retriever)
    (args : Subject * option string) : M World (list Result) :=
  let '(subject, testcase) := args in
  let cache_key := (type subject, identifier subject) in
  in_process ← gets (fun w => cache w !! cache_key);
  match (if Py.truthy testcase then in_process else None) with
  | Some all_results =>
      mret (filter
              (fun res => testcase_name res = default "" testcase)
              all_results)
  | None =>
      if Py.truthy testcase then
        let external_cache_key :=
          external_key subject (default "" testcase) in
        results ← get_external_cache external_cache_key;
        accepted ←
          (if truthy_results results
           then lift (_results_match_time self (default [] results))
           else mret false);
        if accepted : bool then mret (default [] results)
        else _query_upstream self subject testcase
               (Some external_cache_key)
      else _query_upstream self subject testcase None
  end.

Definition retrieve := BaseRetriever.retrieve _retrieve_all.

(** ** Reference functions

    ResultsDB answers as a function of the request, so what a call fetches
    and which requests it issues can be told without running it.  The
    functions below say so; the properties relate them to the code. *)

(** What [_retrieve_data] makes of an answer. *)
Definition response_data
    (answer : Outcome (Response (option (list Result))))
  : Outcome (list Result) :=
  match answer with
  | Raise e => Raise e
  | Ok response =>
      if (400 <=? status_code response) && (status_code response <? 600)
      then Raise (HTTPError (status_code response))
      else match body response with
           | Some data => Ok data
           | None => Raise DecodeError
           end
  end.

(** The outcome of the loop over the queries and the requests it issues;
    the loop stops at the first failure. *)
Fixpoint fetched (self : Retriever) (params : gmap string string)
    (queries : list (gmap string string)) (results : list Result)
  : Outcome (list Result) * list (string * gmap string string) :=
  match queries with
  | [] => (Ok results, [])
  | query :: queries =>
      let target := url self +:+ "/results/latest" in
      let query := params ∪ query in
      match response_data (resultsdb target query) with
      | Ok data =>
          let '(r, issued) := fetched self params queries (results ++ data) in
          (r, (target, query) :: issued)
      | Raise e => (Raise e, [(target, query)])
      end
  end.

Definition add_requests (issued : list (string * gmap string string))
    (w : World) : World :=
  {| cache := cache w; external := external w;
     requests := requests w ++ issued; writes := writes w |}.

(** The two stores at the end of [_retrieve_all]. *)
Definition store_results (subject : Subject)
    (testcase external_cache_key : option string) (results : list Result)
    (w : World) : World :=
  let w1 :=
    if negb (Py.truthy testcase)
    then {| cache := <[(type subject, identifier subject) := results]> (cache w);
            external := external w; requests := requests w;
            writes := writes w |}
    else w in
  if Py.truthy external_cache_key && forallb passed results
  then {| cache := cache w1;
          external := cache_set (external w1)
                        (default "" external_cache_key) results;
          requests := requests w1;
          writes := writes w1 ++ [(default "" external_cache_key, results)] |}
  else w1.

(** Whether a call is answered from the in-process cache or from an entry
    of the external cache that is not empty and passes the staleness
    check. *)
Definition answered_from_cache (self : Retriever) (subject : Subject)
    (testcase : option string) (w : World) : bool :=
  Py.truthy testcase &&
  (bool_decide (is_Some (cache w !! (type subject, identifier subject)))
   || match cache_get (external w)
              (external_key subject (default "" testcase)) with
      | Some (result :: results) =>
          match _results_match_time self (result :: results) with
          | Ok accepted => accepted
          | Raise _ => false
          end
      | _ => false
      end).

End WithServices.

End ResultsRetriever.

Module WaiversRetriever.

(** The filter mappings are objects of the caller: the state holds the
    mapping behind each reference, and [filters] is a list of
    references. *)
Definition ref : Type := positive.

Record World : Type := {
  heap : gmap ref (gmap string string);
  posts : list (string * list (gmap string string))
}.

Section WithServices.

(** WaiverDB: its answer to a POST of the given filters, or a transport
    failure. *)
Variable waiverdb :
  string → list (gmap string string)
  → Outcome (Response (option (list Waiver))).

(** The request carries the mappings as they are when it is issued. *)
Definition _make_request (self : Retriever) (params : list ref)
  : M World (Response (option (list Waiver))) :=
  let target := url self +:+ "/waivers/+filtered" in
  filters ← gets (fun w => (fun r => default ∅ (heap w !! r)) <$> params);
  _ ← modify (fun w =>
        {| heap := heap w; posts := posts w ++ [(target, filters)] |});
  lift (waiverdb target filters).

Definition _retrieve_data := BaseRetriever._retrieve_data _make_request.

(** [for filter_ in filters: filter_.update({'since': self.since})] *)
Fixpoint update_filters (since : string) (filters : list ref)
  : M World unit :=
  match filters with
  | [] => mret tt
  | filter_ :: filters =>
      _ ← modify (fun w =>
            {| heap := alter (insert "since" since) filter_ (heap w);
               posts := posts w |});
      update_filters since filters
  end.

(** The heap after that loop, and the state in which the request is
    issued. *)
Definition updated_heap (since : string) (filters : list ref)
    (h : gmap ref (gmap string string)) : gmap ref (gmap string string) :=
  foldl (fun h r => alter (insert "since" since) r h) h filters.

Definition before_post (self : Retriever) (filters : list ref) (w : World)
  : World :=
  if Py.truthy (since self)
  then {| heap := updated_heap (default "" (since self)) filters (heap w);
          posts := posts w |}
  else w.

Definition _retrieve_all (self : Retriever) (filters : list ref)
  : M World (list Waiver) :=
  _ ← (if Py.truthy (since self)
       then update_filters (default "" (since self)) filters
       else mret tt);
  waivers ← _retrieve_data self filters;
  mret (filter (fun waiver => waived waiver = true) waivers).

Definition retrieve := BaseRetriever.retrieve _retrieve_all.

End WithServices.

End WaiversRetriever.

(* ===================================================================== *)
(** * Example data *)
(* ===================================================================== *)

Module Examples.

Definition bash : Subject :=
  {| type := "koji_build";
     identifier := "bash-5.1-2.fc34";
     result_queries :=
       [ {[ "type" := "koji_build"; "item" := "bash-5.1-2.fc34" ]} ] |}.

Definition rpmdeplint (id : Z) (outcome : string) (submit_time : string)
  : Result :=
  {| result_id := id;
     testcase_name := "dist.rpmdeplint";
     outcome := Some outcome;
     submit_time := submit_time;
     result_rest := [] |}.

Definition OUTCOMES_PASSED : list string := ["PASSED"; "INFO"].

(** A ResultsDB that answers every request with the same results. *)
Definition answering (results : list Result)
  : string → gmap string string → Outcome (Response (option (list Result))) :=
  fun _ _ => Ok {| status_code := 200; body := Some results |}.

(** A ResultsDB that cannot be reached. *)
Definition unreachable
  : string → gmap string string → Outcome (Response (option (list Result))) :=
  fun _ _ => Raise (TransportError "connection refused").

Definition resultsdb_url : string := "https://resultsdb.example.org/api/v2.0".

(** The key of the external cache for [bash] and the test case. *)
Definition bash_key : string :=
  "greenwave.resources:ResultsRetriever|koji_build bash-5.1-2.fc34 dist.rpmdeplint".

(** A retriever state with an in-memory external cache. *)
Definition world (cache : gmap (string * string) (list Result))
    (external : gmap string (list Result))
  : @ResultsRetriever.World (gmap string (list Result)) :=
  {| ResultsRetriever.cache := cache;
     ResultsRetriever.external := external;
     ResultsRetriever.requests := [];
     ResultsRetriever.writes := [] |}.

End Examples.

(* ===================================================================== *)
(** * Koji build records *)
(* ===================================================================== *)

(** The exceptions of the build lookups: those of the list above, the
    failures of the remote call, and the built-in ones. *)
Inductive koji_exn : Type :=
| Exn (e : exn)
| AttributeError                    (* a method of a value that has none *)
| ProtocolError (err : string)      (* xmlrpc.client.ProtocolError, with str(err) *)
| SocketError (err : string)        (* socket.error, that is OSError, with str(err) *)
| Fault (err : string)              (* xmlrpc.client.Fault *)
| ConnectionError (msg : string).   (* the built-in ConnectionError, an OSError *)

Inductive KojiOutcome (A : Type) : Type :=
| Returned (a : A)
| Raised (e : koji_exn).
Arguments Returned {A} a.
Arguments Raised {A} e.

Definition of_Outcome {A} (r : Outcome A) : KojiOutcome A :=
  match r with
  | Ok a => Returned a
  | Raise e => Raised (Exn e)
  end.

(** The two errors of [value[key]] that the lookup of the source catches. *)
Inductive lookup_error : Type := KeyError | TypeError.

Module Value.

(** The truth value of a decoded value; the text of a double is the one
    Python prints for it, and only the two zeros are false. *)
Definition truthy (value : xmlrpc_value) : bool :=
  match value with
  | XNone => false
  | XBool b => b
  | XInt n => negb (n =? 0)
  | XDouble repr => negb (String.eqb repr "0.0" || String.eqb repr "-0.0")
  | XStr s => Py.truthy_str s
  | XDateTime _ => true
  | XBinary _ => true
  | XList items => match items with [] => false | _ :: _ => true end
  | XStruct fields => match fields with [] => false | _ :: _ => true end
  end.

(** The mapping that a struct decodes to: of two members with the same
    name the later one stays. *)
Fixpoint member (fields : list (string * xmlrpc_value)) (key : string)
  : option xmlrpc_value :=
  match fields with
  | [] => None
  | (k, v) :: rest =>
      match member rest key with
      | Some later => Some later
      | None => if String.eqb k key then Some v else None
      end
  end.

(** [value[key]] for a string key: only a mapping can be indexed by a
    string. *)
Definition subscript (value : xmlrpc_value) (key : string)
  : xmlrpc_value + lookup_error :=
  match value with
  | XStruct fields =>
      match member fields key with
      | Some v => inl v
      | None => inr KeyError
      end
  | _ => inr TypeError
  end.

(** [value.get(key)]: [None] for a missing key; only a mapping has the
    method. *)
Definition get (value : xmlrpc_value) (key : string)
  : KojiOutcome xmlrpc_value :=
  match value with
  | XStruct fields => Returned (default XNone (member fields key))
  | _ => Raised AttributeError
  end.

End Value.

Definition not_found_message (nvr koji_url : string) : string :=
  "Failed to find Koji build for " +:+ Py.dq +:+ nvr +:+ Py.dq
  +:+ " at " +:+ Py.dq +:+ koji_url +:+ Py.dq.

Section KojiBuild.

Variable Timeout : Type.
Variable REQUESTS_TIMEOUT : Timeout + Timeout * Timeout.

(** [get_server_proxy(koji_url, timeout).getBuild] *)
Variable getBuild : string → Timeout → string → KojiOutcome xmlrpc_value.

(** [build["extra"]["source"]["original_url"]] *)
Definition original_url (build : xmlrpc_value)
  : xmlrpc_value + lookup_error :=
  match Value.subscript build "extra" with
  | inl extra =>
      match Value.subscript extra "source" with
      | inl source => Value.subscript source "original_url"
      | inr e => inr e
      end
  | inr e => inr e
  end.

(** [retrieve_koji_task_id_and_source(nvr, koji_url)], the body under the
    memoising decorator. *)
Definition retrieve_koji_task_id_and_source (nvr koji_url : string)
  : KojiOutcome (xmlrpc_value * xmlrpc_value) :=
  match getBuild koji_url (_requests_timeout Timeout REQUESTS_TIMEOUT) nvr with
  | Raised e => Raised e
  | Returned build =>
      if negb (Value.truthy build)
      then Raised (Exn (NotFound (not_found_message nvr koji_url)))
      else
        match Value.get build "task_id" with
        | Raised e => Raised e
        | Returned task_id =>
            match original_url build with
            | inl source => Returned (task_id, source)
            | inr _ =>                 (* TypeError, KeyError: both caught *)
                match Value.get build "source" with
                | Raised e => Raised e
                | Returned source => Returned (task_id, source)
                end
            end
        end
  end.

Variable urlparse : string → option ParseResult.

(** [current_app.config["KOJI_BASE_URL"]] *)
Variable KOJI_BASE_URL : string.

(** What [retrieve_scm_from_koji_build] does with a source that is true
    and not a string; such a source is outside the model of the parser
    (a false source of any type has the outcome of [None]). *)
Variable other_source :
  string → xmlrpc_value → string → KojiOutcome (string * string * string).

(** [retrieve_scm_from_koji(nvr)] *)
Definition retrieve_scm_from_koji (nvr : string)
  : KojiOutcome (string * string * string) :=
  let koji_url := KOJI_BASE_URL in
  match retrieve_koji_task_id_and_source nvr koji_url with
  | Raised (ProtocolError err)
  | Raised (SocketError err)
  | Raised (ConnectionError err) =>
      Raised (ConnectionError ("Could not reach Koji: " +:+ err))
  | Raised e => Raised e
  | Returned (_, source) =>
      if negb (Value.truthy source)        (* [not source] *)
      then of_Outcome (retrieve_scm_from_koji_build urlparse nvr None koji_url)
      else
        match source with
        | XStr s =>
            of_Outcome
              (retrieve_scm_from_koji_build urlparse nvr (Some s) koji_url)
        | _ => other_source nvr source koji_url
        end
  end.

End KojiBuild.

(** The build record has a mapping under [extra], which has a mapping
    under [source], which has the value [v] under [original_url]. *)
Definition has_original_url (fields : list (string * xmlrpc_value))
    (v : xmlrpc_value) : Prop :=
  ∃ extra source,
    Value.member fields "extra" = Some (XStruct extra)
    ∧ Value.member extra "source" = Some (XStruct source)
    ∧ Value.member source "original_url" = Some v.
(* ===================================================================== *)
(** * Properties of the string primitives *)
(* ===================================================================== *)

Lemma truthy_str_true (s : string) : Py.truthy_str s = true ↔ s ≠ "".
Proof.
  unfold Py.truthy_str. rewrite negb_true_iff. apply String.eqb_neq.
Qed.

Lemma truthy_str_false (s : string) : Py.truthy_str s = false ↔ s = "".
Proof.
  unfold Py.truthy_str. rewrite negb_false_iff. apply String.eqb_eq.
Qed.

Lemma truthy_false (o : option string) :
  Py.truthy o = false ↔ o = None ∨ o = Some "".
Proof.
  destruct o as [s|]; simpl.
  - rewrite truthy_str_false. split.
    + intros ->. by right.
    + intros [?|[= ->]]; done.
  - split; [by left | done].
Qed.

Lemma push_head_app (c : ascii) (a : string) (l1 l2 : list string) :
  Py.push_head c ((a :: l1) ++ l2) = Py.push_head c (a :: l1) ++ l2.
Proof. reflexivity. Qed.

Lemma split_nonempty (sep : ascii) (s : string) : Py.split sep s ≠ [].
Proof.
  destruct s as [|c s]; simpl; [done|].
  destruct (Ascii.eqb c sep); [done|].
  destruct (Py.split sep s); done.
Qed.

(** How the pieces of [rsplit] sit inside those of [split]: all pieces but
    the first are the last pieces of the full split, and when fewer than
    the allowed number of cuts were made the two lists are the same. *)
Lemma rsplit_split (sep : ascii) (n : nat) (s : string) :
  ∃ (h : string) (T A : list string),
    Py.rsplit sep n s = h :: T ∧
    Py.split sep s = A ++ T ∧
    A ≠ [] ∧
    (length (h :: T) ≤ n → A = [h])%nat ∧
    (length (h :: T) ≤ S n)%nat.
Proof.
  induction s as [|c s (h & T & A & HR & HL & HA & Hfew & Hlen)].
  - exists "", [], [""]. simpl. repeat split; (done || lia).
  - cbn [Py.rsplit Py.split]. rewrite HR, HL.
    destruct (Ascii.eqb c sep) eqn:Hc; cbn [andb].
    + destruct (Nat.leb_spec (length (h :: T)) n) as [Hle|Hgt].
      * exists "", (h :: T), [""]. rewrite (Hfew Hle).
        simpl in *. repeat split; (done || lia).
      * exists (String c h), T, ("" :: A).
        simpl in *. repeat split; (done || lia).
    + destruct A as [|a A]; [done|].
      exists (String c h), T, (String c a :: A).
      simpl in *. repeat split; try (done || lia).
      intros Hle. specialize (Hfew Hle). by simplify_eq.
Qed.

Lemma lookup_last_item {A} (l : list A) (d : A) :
  l ≠ [] → l !! (length l - 1)%nat = Some (List.last l d).
Proof.
  induction l as [|x [|y l] IH]; intros Hl; [done | done |].
  specialize (IH ltac:(done)).
  replace (length (x :: y :: l) - 1)%nat with (S (length (y :: l) - 1))
    by (simpl; lia).
  exact IH.
Qed.

Lemma getitem_neg_last {A} (l : list A) (d : A) :
  l ≠ [] → Py.getitem_neg l 1 = Ok (List.last l d).
Proof.
  intros Hl. unfold Py.getitem_neg.
  rewrite (lookup_last_item l d Hl).
  destruct l; [done|]. reflexivity.
Qed.

(** The namespace computed through [rsplit] is the one of the
    specification, and the index into the pieces is never out of range. *)
Lemma namespace_rsplit (p : string) :
  (if (length (Py.rsplit "/" 2 p) <? 3)%nat then Ok ""
   else Py.getitem_neg (Py.rsplit "/" 2 p) 2)
  = Ok (ProvenanceSpec.namespace p).
Proof.
  unfold ProvenanceSpec.namespace.
  destruct (rsplit_split "/" 2 p) as (h & T & A & -> & -> & HA & Hfew & Hlen).
  destruct (Nat.ltb_spec (length (h :: T)) 3) as [Hlt|Hge].
  - rewrite Hfew by (simpl in *; lia).
    simpl in Hlt. change ([h] ++ T) with (h :: T).
    destruct (Nat.leb_spec 3 (length (h :: T))); [simpl in *; lia | done].
  - destruct T as [|x [|y [|z T]]]; simpl in Hlen, Hge; try lia.
    assert (Hl : length (A ++ [x; y]) = (length A + 2)%nat)
      by (rewrite length_app; done).
    assert (HA' : (1 ≤ length A)%nat) by (destruct A; simpl; [done | lia]).
    unfold Py.getitem_neg. rewrite Hl.
    rewrite (proj2 (Nat.leb_le 3 (length A + 2))) by lia.
    replace (length A + 2 - 2)%nat with (length A + 0)%nat by lia.
    rewrite lookup_app_r by lia.
    replace (length A + 0 - length A)%nat with 0%nat by lia.
    reflexivity.
Qed.

Lemma re_sub_dot_git_strip (segment : string) :
  Py.endswith (".git" +:+ Py.lf) segment = false →
  Py.re_sub_dot_git segment = ProvenanceSpec.strip_dot_git segment.
Proof.
  intros H. unfold Py.re_sub_dot_git, ProvenanceSpec.strip_dot_git.
  rewrite H. reflexivity.
Qed.

Example split_example :
  Py.split "/" "/ns/pkg.git" = [""; "ns"; "pkg.git"].
Proof. reflexivity. Qed.

Example rsplit_example :
  Py.rsplit "/" 2 "a/b/c/d" = ["a/b"; "c"; "d"].
Proof. reflexivity. Qed.

Example rsplit_short_example : Py.rsplit "/" 2 "/pkg" = [""; "pkg"].
Proof. reflexivity. Qed.

Example urlparse_example :
  urllib_parse.urlparse "https://host/ns/pkg.git#abc123"
  = Some {| scheme := "https"; netloc := "host"; path := "/ns/pkg.git";
            params := ""; query := ""; fragment := "abc123" |}.
Proof. vm_compute. reflexivity. Qed.

Example scm_example :
  retrieve_scm_from_koji_build urllib_parse.urlparse "nvr"
    (Some "https://host/ns/pkg.git#abc123") "koji"
  = Ok ("ns", "pkg", "abc123").
Proof. vm_compute. reflexivity. Qed.


(** Unfold the operations of the state-and-exception monad. *)
Ltac run_M :=
  unfold mbind, mret, M_bind, M_ret, raise, gets, modify, lift in *;
  cbn beta iota in *.

(* ===================================================================== *)
(** * The provenance parser *)
(* ===================================================================== *)

(** The parser, branch by branch: the two index operations never fail, so
    the only outcomes are the two errors of the parser itself, the error of
    [urlparse], and the tuple. *)
Lemma retrieve_scm_from_koji_build_cases
    (urlparse : string → option ParseResult)
    (nvr : string) (source : option string) (koji_url : string) :
  retrieve_scm_from_koji_build urlparse nvr source koji_url =
  if negb (Py.truthy source)
  then Raise (NoSourceException (no_source_message nvr koji_url))
  else match urlparse (default "" source) with
       | None => Raise ValueError
       | Some u =>
           if negb (Py.truthy_str (fragment u))
           then Raise (BadGateway
                  (missing_fragment_message (default "" source) nvr koji_url))
           else Ok (ProvenanceSpec.namespace (path u),
                    Py.re_sub_dot_git (ProvenanceSpec.last_segment (path u)),
                    fragment u)
       end.
Proof.
  unfold retrieve_scm_from_koji_build.
  destruct (negb (Py.truthy source)); [reflexivity|].
  destruct (urlparse (default "" source)) as [u|]; [|reflexivity].
  rewrite namespace_rsplit. cbn [mbind Outcome_bind].
  destruct (negb (Py.truthy_str (fragment u))); [reflexivity|].
  rewrite (getitem_neg_last _ "") by apply split_nonempty.
  reflexivity.
Qed.

(** C1, as amended: for a non-empty source that [urlparse] accepts, whose
    fragment is non-empty and whose last path segment does not end in
    [.git] followed by a line feed, the parser returns the namespace (the
    second-to-last path segment if the path has at least three segments
    after splitting on the slash, else the empty string), the package name
    (the last path segment without a trailing literal [.git]) and the
    fragment.  The URL [https://host/ns/pkg.git#abc123] gives
    [(ns, pkg, abc123)], and [.GIT] is not stripped. *)
Theorem C1_scm_parser_tuple :
  (∀ (urlparse : string → option ParseResult)
     (nvr source koji_url : string) (u : ParseResult),
     source ≠ "" →
     urlparse source = Some u →
     fragment u ≠ "" →
     Py.endswith (".git" +:+ Py.lf)
       (ProvenanceSpec.last_segment (path u)) = false →
     retrieve_scm_from_koji_build urlparse nvr (Some source) koji_url
     = Ok (ProvenanceSpec.namespace (path u),
           ProvenanceSpec.package_name (path u),
           fragment u))
  ∧ (∀ nvr koji_url : string,
       retrieve_scm_from_koji_build urllib_parse.urlparse nvr
         (Some "https://host/ns/pkg.git#abc123") koji_url
       = Ok ("ns", "pkg", "abc123"))
  ∧ (∀ nvr koji_url : string,
       retrieve_scm_from_koji_build urllib_parse.urlparse nvr
         (Some "https://host/ns/pkg.GIT#abc123") koji_url
       = Ok ("ns", "pkg.GIT", "abc123")).
Proof.
  split; [|split].
  - intros urlparse nvr source koji_url u Hsrc Hparse Hfrag Hlf.
    rewrite retrieve_scm_from_koji_build_cases. simpl.
    rewrite (proj2 (truthy_str_true source) Hsrc). simpl.
    rewrite Hparse, (proj2 (truthy_str_true (fragment u)) Hfrag). simpl.
    rewrite re_sub_dot_git_strip by exact Hlf. reflexivity.
  - intros nvr koji_url. reflexivity.
  - intros nvr koji_url. reflexivity.
Qed.

Lemma C1_scm_parser_tuple_witness :
  retrieve_scm_from_koji_build urllib_parse.urlparse "bash-5.1-2.fc34"
    (Some "git+https://src.example.org/rpms/bash.git#deadbeef")
    "https://koji.example.org/kojihub"
  = Ok ("rpms", "bash", "deadbeef").
Proof.
  exact (proj1 C1_scm_parser_tuple urllib_parse.urlparse "bash-5.1-2.fc34"
           "git+https://src.example.org/rpms/bash.git#deadbeef"
           "https://koji.example.org/kojihub"
           {| scheme := "git+https"; netloc := "src.example.org";
              path := "/rpms/bash.git"; params := ""; query := "";
              fragment := "deadbeef" |}
           ltac:(discriminate) eq_refl ltac:(discriminate) eq_refl).
Defined.

(** C1 as stated fails: a non-empty source without a fragment yields no
    tuple. *)
Lemma C1_counterexample_no_fragment :
  "https://host/ns/pkg.git" ≠ "" ∧
  ¬ returns (retrieve_scm_from_koji_build urllib_parse.urlparse "nvr"
               (Some "https://host/ns/pkg.git") "koji").
Proof.
  split; [discriminate|].
  intros [t Ht]. vm_compute in Ht. discriminate Ht.
Qed.

(** The anchor of the pattern also matches before a final line feed: there
    the code removes a [.git] that is not a suffix of the segment. *)
Example re_sub_before_line_feed :
  Py.re_sub_dot_git ("pkg.git" +:+ Py.lf) = "pkg" +:+ Py.lf
  ∧ ProvenanceSpec.strip_dot_git ("pkg.git" +:+ Py.lf) = "pkg.git" +:+ Py.lf.
Proof. split; reflexivity. Qed.

(** C2: the parser raises the no-source error exactly when the source is
    absent or empty, and the bad-gateway error exactly when the source is
    non-empty and its parsed fragment is empty; no outcome is both errors,
    and a non-empty source with a non-empty fragment raises neither. *)
Theorem C2_scm_parser_errors
    (urlparse : string → option ParseResult)
    (nvr : string) (source : option string) (koji_url : string) :
  let r := retrieve_scm_from_koji_build urlparse nvr source koji_url in
  (raises_NoSource r ↔ source = None ∨ source = Some "")
  ∧ (raises_BadGateway r ↔
       ∃ s u, source = Some s ∧ s ≠ "" ∧ urlparse s = Some u
              ∧ fragment u = "")
  ∧ ¬ (raises_NoSource r ∧ raises_BadGateway r)
  ∧ (∀ s u, source = Some s → s ≠ "" → urlparse s = Some u →
            fragment u ≠ "" →
            ¬ raises_NoSource r ∧ ¬ raises_BadGateway r ∧ returns r).
Proof.
  intros r. subst r. rewrite retrieve_scm_from_koji_build_cases.
  unfold raises_NoSource, raises_BadGateway, returns.
  destruct (Py.truthy source) eqn:Htruthy; simpl.
  - (* a non-empty source *)
    destruct source as [s|]; [|discriminate]. simpl in *.
    apply truthy_str_true in Htruthy.
    destruct (urlparse s) as [u|] eqn:Hparse.
    + destruct (Py.truthy_str (fragment u)) eqn:Hfrag; simpl.
      * apply truthy_str_true in Hfrag. naive_solver.
      * apply truthy_str_false in Hfrag. naive_solver.
    + naive_solver.
  - (* no source *)
    apply truthy_false in Htruthy. naive_solver.
Qed.

Lemma C2_scm_parser_errors_witness :
  raises_BadGateway
    (retrieve_scm_from_koji_build urllib_parse.urlparse "bash-5.1-2.fc34"
       (Some "git+https://src.example.org/rpms/bash.git")
       "https://koji.example.org/kojihub")
  ∧ raises_NoSource
      (retrieve_scm_from_koji_build urllib_parse.urlparse "bash-5.1-2.fc34"
         None "https://koji.example.org/kojihub").
Proof.
  split.
  - apply (C2_scm_parser_errors urllib_parse.urlparse "bash-5.1-2.fc34"
             (Some "git+https://src.example.org/rpms/bash.git")
             "https://koji.example.org/kojihub").
    exists "git+https://src.example.org/rpms/bash.git".
    exists {| scheme := "git+https"; netloc := "src.example.org";
              path := "/rpms/bash.git"; params := ""; query := "";
              fragment := "" |}.
    split; [reflexivity|]. split; [discriminate|].
    split; reflexivity.
  - apply (C2_scm_parser_errors urllib_parse.urlparse "bash-5.1-2.fc34"
             None "https://koji.example.org/kojihub").
    left. reflexivity.
Defined.

(** C9: given the value that the task request call answered, the target
    is the second element exactly when the value is a sequence of length
    greater than one whose second element is a string; in every other case
    the function returns [None], and it never raises.  A one-element list
    gives [None], a list with a string second gives that string, a list
    with the number five second gives [None]. *)
Theorem C9_koji_build_target
    (Timeout : Type) (REQUESTS_TIMEOUT : Timeout + Timeout * Timeout)
    (getTaskRequest : string → Timeout → string → Outcome xmlrpc_value)
    (nvr koji_url : string) (task_request : xmlrpc_value) :
  getTaskRequest koji_url (_requests_timeout Timeout REQUESTS_TIMEOUT) nvr
    = Ok task_request →
  let r := retrieve_koji_build_target Timeout REQUESTS_TIMEOUT getTaskRequest
             nvr koji_url in
  let shaped (target : string) :=
    ∃ items, task_request = XList items ∧ (1 < length items)%nat
             ∧ items !! 1%nat = Some (XStr target) in
  (∀ target, r = Ok (Some target) ↔ shaped target)
  ∧ (r = Ok None ↔ ¬ ∃ target, shaped target)
  ∧ returns r
  ∧ (task_request = XList [XStr "x"] → r = Ok None)
  ∧ (task_request = XList [XStr "x"; XStr "target"] → r = Ok (Some "target"))
  ∧ (task_request = XList [XStr "x"; XInt 5] → r = Ok None).
Proof.
  intros Hcall r shaped. subst r shaped.
  unfold retrieve_koji_build_target, returns. rewrite Hcall.
  cbn [mbind Outcome_bind].
  destruct task_request as [| | | | | | |items|]; try (naive_solver).
  destruct items as [|first [|second rest]]; simpl.
  - naive_solver lia.
  - naive_solver lia.
  - destruct second; simpl; naive_solver lia.
Qed.

Lemma C9_koji_build_target_witness :
  retrieve_koji_build_target unit (inl tt)
    (fun _ _ _ => Ok (XList [XStr "build"; XStr "f34-candidate"; XNone]))
    "bash-5.1-2.fc34" "https://koji.example.org/kojihub"
  = Ok (Some "f34-candidate").
Proof.
  apply (C9_koji_build_target unit (inl tt)
           (fun _ _ _ => Ok (XList [XStr "build"; XStr "f34-candidate"; XNone]))
           "bash-5.1-2.fc34" "https://koji.example.org/kojihub"
           (XList [XStr "build"; XStr "f34-candidate"; XNone]) eq_refl).
  exists [XStr "build"; XStr "f34-candidate"; XNone].
  split; [reflexivity|]. split; [simpl; lia | reflexivity].
Defined.

(* ===================================================================== *)
(** * The remote policy fetcher *)
(* ===================================================================== *)

(** C8, as amended: the fetcher issues a HEAD request first; on status 404
    it returns [None] and issues no GET; on any other status than 200
    (other 2xx statuses included) it raises the gateway error and issues no
    GET; on status 200 it issues a GET and returns the raw body, unless the
    status of the GET is a client or server error, which is raised. *)
Theorem C8_remote_rule
    (web : Method → string → Outcome (Response string))
    (url : string) (log : list (Method * string)) :
  let '(r, log') := retrieve_yaml_remote_rule web url log in
  (∃ rest, log' = log ++ (HEAD, url) :: rest)
  ∧ (∀ head, web HEAD url = Ok head →
       (status_code head = 404 →
          r = Ok None ∧ log' = log ++ [(HEAD, url)])
       ∧ (status_code head ≠ 404 → status_code head ≠ 200 →
          raises_BadGateway r ∧ log' = log ++ [(HEAD, url)])
       ∧ (status_code head = 200 →
          log' = log ++ [(HEAD, url); (GET, url)]
          ∧ ∀ get, web GET url = Ok get →
              if (400 <=? status_code get) && (status_code get <? 600)
              then r = Raise (HTTPError (status_code get))
              else r = Ok (Some (body get)))).
Proof.
  unfold retrieve_yaml_remote_rule, request, raise_for_status,
    raises_BadGateway.
  run_M.
  destruct (web HEAD url) as [head|e] eqn:Hhead.
  - destruct (Z.eqb_spec (status_code head) 404) as [H404|H404].
    + split; [by exists []|]. intros ? [= <-].
      split; [done|]. split; [done|]. intros H200. congruence.
    + destruct (Z.eqb_spec (status_code head) 200) as [H200|H200];
        cbn [negb].
      * rewrite <- (assoc_L (++)). cbn [app].
        destruct (web GET url) as [get|e] eqn:Hget;
          [destruct ((400 <=? status_code get) && (status_code get <? 600))
             eqn:Hstatus|];
          (split; [by eexists|]); intros ? [= <-];
          (split; [done|]); (split; [done|]); intros _;
          (split; [done|]); intros ? [= <-]; by rewrite Hstatus.
      * split; [by exists []|]. intros ? [= <-].
        split; [done|]. split; [|done]. eauto.
  - split; [by exists []|]. intros ? [=].
Qed.

Lemma C8_remote_rule_witness :
  retrieve_yaml_remote_rule
    (fun method _ =>
       match method with
       | HEAD => Ok {| status_code := 200; body := "" |}
       | GET => Ok {| status_code := 200; body := "--- !Policy" |}
       end)
    "https://src.example.org/rpms/bash/raw/deadbeef/f/gating.yaml" []
  = (Ok (Some "--- !Policy"),
     [(HEAD, "https://src.example.org/rpms/bash/raw/deadbeef/f/gating.yaml");
      (GET, "https://src.example.org/rpms/bash/raw/deadbeef/f/gating.yaml")]).
Proof.
  pose proof (C8_remote_rule
    (fun method _ =>
       match method with
       | HEAD => Ok {| status_code := 200; body := "" |}
       | GET => Ok {| status_code := 200; body := "--- !Policy" |}
       end)
    "https://src.example.org/rpms/bash/raw/deadbeef/f/gating.yaml" []) as H.
  destruct (retrieve_yaml_remote_rule _ _ _) as [r log'].
  destruct H as [_ H].
  destruct (H _ eq_refl) as (_ & _ & H200).
  destruct (H200 eq_refl) as [-> Hget].
  specialize (Hget _ eq_refl). simpl in Hget. rewrite Hget. reflexivity.
Defined.

(** C8 as stated fails: a HEAD answered with a 2xx status other than 200 is
    not a success; the gateway error is raised and no GET is issued. *)
Lemma C8_counterexample_head_204 :
  retrieve_yaml_remote_rule
    (fun _ _ => Ok {| status_code := 204; body := "--- !Policy" |})
    "https://src.example.org/rpms/bash/raw/deadbeef/f/gating.yaml" []
  = (Raise (BadGateway
       "Error occurred while retrieving a remote rule file from the repo."),
     [(HEAD, "https://src.example.org/rpms/bash/raw/deadbeef/f/gating.yaml")]).
Proof. reflexivity. Qed.

(* ===================================================================== *)
(** * The base retriever *)
(* ===================================================================== *)

Section BaseRetriever_properties.
Context {S Args A : Type} `{Item A}.
Variable _retrieve_all : Retriever → Args → M S (list A).

(** [retrieve] runs [_retrieve_all] and keeps its state and its
    exception. *)
Lemma retrieve_run (self : Retriever) (args : Args) (s : S) :
  BaseRetriever.retrieve _retrieve_all self args s =
  match _retrieve_all self args s with
  | (Ok items, s') =>
      (Ok (filter (fun item => item_id item ∉ ignore_ids self) items), s')
  | (Raise e, s') => (Raise e, s')
  end.
Proof.
  unfold BaseRetriever.retrieve. run_M.
  destruct (_retrieve_all self args s) as [[items|e] s']; reflexivity.
Qed.

End BaseRetriever_properties.

(** C6: for every [ignore_ids] and every item list that [_retrieve_all]
    produces, [retrieve] returns exactly the items whose id is not in
    [ignore_ids], in their order: the items returned are a subsequence of
    the list, an item is returned if and only if it is in the list and its
    id is not ignored, and no returned item has an ignored id. *)
Theorem C6_retrieve_filters_ignored
    {S Args A : Type} `{Item A}
    (_retrieve_all : Retriever → Args → M S (list A))
    (self : Retriever) (args : Args) (s : S) :
  match _retrieve_all self args s with
  | (Ok items, s') =>
      ∃ out,
        BaseRetriever.retrieve _retrieve_all self args s = (Ok out, s')
        ∧ out = filter (fun item => item_id item ∉ ignore_ids self) items
        ∧ sublist out items
        ∧ (∀ item, item ∈ out ↔ item ∈ items ∧ item_id item ∉ ignore_ids self)
        ∧ Forall (fun item => item_id item ∉ ignore_ids self) out
        ∧ (ignore_ids self = [] → out = items)
  | (Raise e, s') =>
      BaseRetriever.retrieve _retrieve_all self args s = (Raise e, s')
  end.
Proof.
  rewrite retrieve_run.
  destruct (_retrieve_all self args s) as [[items|e] s']; [|reflexivity].
  eexists. split; [reflexivity|]. split; [reflexivity|].
  split; [apply sublist_filter|].
  split; [intros item; rewrite list_elem_of_filter; tauto|].
  split.
  - apply Forall_forall. intros item Hin.
    apply list_elem_of_filter in Hin. tauto.
  - intros Hnone. rewrite Hnone.
    induction items as [|item items IH]; [reflexivity|].
    rewrite filter_cons_True by apply not_elem_of_nil.
    by rewrite IH.
Qed.

Lemma C6_retrieve_filters_ignored_witness :
  BaseRetriever.retrieve
    (fun (_ : Retriever) (_ : unit) (s : unit) =>
       (Ok [ {| waiver_id := 1; waived := true; waiver_rest := [] |};
             {| waiver_id := 2; waived := true; waiver_rest := [] |};
             {| waiver_id := 3; waived := true; waiver_rest := [] |} ], s))
    (BaseRetriever.__init__ [2] None "https://waiverdb.example.org/api/v1.0")
    tt tt
  = (Ok [ {| waiver_id := 1; waived := true; waiver_rest := [] |};
          {| waiver_id := 3; waived := true; waiver_rest := [] |} ], tt).
Proof.
  destruct (C6_retrieve_filters_ignored
    (fun (_ : Retriever) (_ : unit) (s : unit) =>
       (Ok [ {| waiver_id := 1; waived := true; waiver_rest := [] |};
             {| waiver_id := 2; waived := true; waiver_rest := [] |};
             {| waiver_id := 3; waived := true; waiver_rest := [] |} ], s))
    (BaseRetriever.__init__ [2] None "https://waiverdb.example.org/api/v1.0")
    tt tt) as (out & -> & -> & _).
  reflexivity.
Defined.

(* ===================================================================== *)
(** * The waivers retriever *)
(* ===================================================================== *)

Section WaiversRetriever_properties.
Import WaiversRetriever.

Variable waiverdb :
  string → list (gmap string string)
  → Outcome (Response (option (list Waiver))).

Lemma update_filters_run (since : string) (filters : list ref) (w : World) :
  update_filters since filters w =
  (Ok tt, {| heap := updated_heap since filters (heap w);
             posts := posts w |}).
Proof.
  revert w. induction filters as [|r filters IH]; intros w.
  - by destruct w.
  - cbn [update_filters]. run_M. rewrite IH. reflexivity.
Qed.

Lemma updated_heap_lookup (since : string) (filters : list ref)
    (h : gmap ref (gmap string string)) (r : ref) :
  updated_heap since filters h !! r =
  if decide (r ∈ filters) then <["since" := since]> <$> h !! r
  else h !! r.
Proof.
  revert h. induction filters as [|r' filters IH]; intros h.
  - rewrite decide_False by apply not_elem_of_nil. reflexivity.
  - change (updated_heap since (r' :: filters) h)
      with (updated_heap since filters
              (alter (insert "since" since) r' h)).
    rewrite IH, lookup_alter.
    destruct (decide (r' = r)) as [->|Hne].
    + rewrite (decide_True (P := r ∈ r :: filters)) by left.
      destruct (decide (r ∈ filters)); [|reflexivity].
      destruct (h !! r) as [d|]; [|reflexivity].
      cbn. by rewrite insert_insert_eq.
    + destruct (decide (r ∈ filters)) as [Hin|Hnin].
      * rewrite decide_True by (by right). reflexivity.
      * rewrite decide_False; [reflexivity|].
        intros Hin. apply elem_of_cons in Hin as [->|?]; done.
Qed.

(** One call, step by step. *)
Lemma waivers_retrieve_run (self : Retriever) (filters : list ref)
    (w : World) :
  let w1 := before_post self filters w in
  let target := url self +:+ "/waivers/+filtered" in
  let sent := (fun r => default ∅ (heap w1 !! r)) <$> filters in
  let w2 := {| heap := heap w1; posts := posts w ++ [(target, sent)] |} in
  retrieve waiverdb self filters w =
  match waiverdb target sent with
  | Raise e => (Raise e, w2)
  | Ok response =>
      if (400 <=? status_code response) && (status_code response <? 600)
      then (Raise (HTTPError (status_code response)), w2)
      else match body response with
           | None => (Raise DecodeError, w2)
           | Some waivers =>
               (Ok (filter
                      (fun item => item_id item ∉ ignore_ids self)
                      (filter (fun waiver => waived waiver = true) waivers)),
                w2)
           end
  end.
Proof.
  intros w1 target sent w2. unfold retrieve. rewrite retrieve_run.
  unfold _retrieve_all, _retrieve_data, BaseRetriever._retrieve_data,
    _make_request, raise_for_status, json_data.
  assert (Hposts : posts w1 = posts w).
  { subst w1. unfold before_post. by destruct (Py.truthy (since self)). }
  assert (Hstep :
    (if Py.truthy (since self)
     then update_filters (default "" (since self)) filters
     else mret ()) w = (Ok tt, w1)).
  { subst w1. unfold before_post.
    destruct (Py.truthy (since self)); [apply update_filters_run|done]. }
  run_M. rewrite Hstep. fold target. fold sent. rewrite Hposts. fold w2.
  destruct (waiverdb target sent) as [response|e]; [|reflexivity].
  destruct ((400 <=? status_code response) && (status_code response <? 600));
    [reflexivity|].
  destruct (body response); reflexivity.
Qed.

End WaiversRetriever_properties.

(** C7: whatever list of waivers the POST is answered with, the retriever
    returns only entries whose [waived] field is true, and every such
    entry that [ignore_ids] does not exclude: a record that is not waived
    never appears, and the order of the records is kept. *)
Theorem C7_waivers_only_waived
    (waiverdb : string → list (gmap string string)
                → Outcome (Response (option (list Waiver))))
    (self : Retriever) (filters : list WaiversRetriever.ref)
    (w : WaiversRetriever.World) :
  let '(r, w') := WaiversRetriever.retrieve waiverdb self filters w in
  ∃ target sent,
    WaiversRetriever.posts w' = WaiversRetriever.posts w ++ [(target, sent)]
    ∧ ∀ response waivers,
        waiverdb target sent = Ok response →
        (400 <=? status_code response) && (status_code response <? 600)
          = false →
        body response = Some waivers →
        ∃ out,
          r = Ok out
          ∧ sublist out waivers
          ∧ Forall (fun waiver => waived waiver = true) out
          ∧ (∀ waiver, waiver ∈ waivers → waived waiver = false →
                       waiver ∉ out)
          ∧ (∀ waiver, waiver ∈ out ↔
               waiver ∈ waivers ∧ waived waiver = true
               ∧ waiver_id waiver ∉ ignore_ids self).
Proof.
  rewrite waivers_retrieve_run.
  set (w1 := WaiversRetriever.before_post self filters w).
  set (target := url self +:+ "/waivers/+filtered").
  set (sent := (fun r => default ∅ (WaiversRetriever.heap w1 !! r)) <$> filters).
  assert (Hspec : ∀ waivers,
    let out := filter (fun item => item_id item ∉ ignore_ids self)
                 (filter (fun waiver => waived waiver = true) waivers) in
    sublist out waivers
    ∧ Forall (fun waiver => waived waiver = true) out
    ∧ (∀ waiver, waiver ∈ waivers → waived waiver = false → waiver ∉ out)
    ∧ (∀ waiver, waiver ∈ out ↔
         waiver ∈ waivers ∧ waived waiver = true
         ∧ waiver_id waiver ∉ ignore_ids self)).
  { intros waivers out.
    assert (Hin : ∀ waiver, waiver ∈ out ↔
         waiver ∈ waivers ∧ waived waiver = true
         ∧ waiver_id waiver ∉ ignore_ids self).
    { intros waiver. subst out. rewrite !list_elem_of_filter.
      unfold item_id, Waiver_item. tauto. }
    split; [|split; [|split]]; [| | |exact Hin].
    - subst out. etrans; apply sublist_filter.
    - apply Forall_forall. intros waiver Hw. apply Hin in Hw. tauto.
    - intros waiver _ Hfalse Hw. apply Hin in Hw. destruct Hw as (_ & Ht & _).
      congruence. }
  destruct (waiverdb target sent) as [response|e] eqn:Hdb.
  - destruct ((400 <=? status_code response) && (status_code response <? 600))
      eqn:Hstatus.
    + exists target, sent. split; [reflexivity|].
      intros response' waivers' Heq Hst. rewrite Hdb in Heq.
      simplify_eq. congruence.
    + destruct (body response) as [waivers|] eqn:Hbody.
      * exists target, sent. split; [reflexivity|].
        intros response' waivers' Heq _ Hb. rewrite Hdb in Heq.
        simplify_eq. eexists. split; [reflexivity|]. apply Hspec.
      * exists target, sent. split; [reflexivity|].
        intros response' waivers' Heq _ Hb. rewrite Hdb in Heq.
        simplify_eq.
  - exists target, sent. split; [reflexivity|].
    intros response' waivers' Heq. rewrite Hdb in Heq. discriminate Heq.
Qed.

Lemma C7_waivers_only_waived_witness :
  ∃ out,
    (WaiversRetriever.retrieve
       (fun _ _ =>
          Ok {| status_code := 200;
                body := Some
                  [ {| waiver_id := 1; waived := true; waiver_rest := [] |};
                    {| waiver_id := 2; waived := false; waiver_rest := [] |};
                    {| waiver_id := 3; waived := true; waiver_rest := [] |} ] |})
       (BaseRetriever.__init__ [] None "https://waiverdb.example.org/api/v1.0")
       [] {| WaiversRetriever.heap := ∅; WaiversRetriever.posts := [] |}).1
    = Ok out
    ∧ ({| waiver_id := 2; waived := false; waiver_rest := [] |} ∉ out)
    ∧ ({| waiver_id := 3; waived := true; waiver_rest := [] |} ∈ out).
Proof.
  pose proof (C7_waivers_only_waived
     (fun _ _ =>
        Ok {| status_code := 200;
              body := Some
                [ {| waiver_id := 1; waived := true; waiver_rest := [] |};
                  {| waiver_id := 2; waived := false; waiver_rest := [] |};
                  {| waiver_id := 3; waived := true; waiver_rest := [] |} ] |})
     (BaseRetriever.__init__ [] None "https://waiverdb.example.org/api/v1.0")
     [] {| WaiversRetriever.heap := ∅; WaiversRetriever.posts := [] |}) as H.
  destruct (WaiversRetriever.retrieve _ _ _ _) as [r w'].
  destruct H as (target & sent & _ & H).
  destruct (H _ _ eq_refl eq_refl eq_refl) as (out & -> & _ & _ & Hnot & Hin).
  exists out. split; [reflexivity|]. split.
  - apply Hnot; [|reflexivity]. right. left.
  - apply Hin. split; [do 2 right; left|].
    split; [reflexivity|]. apply not_elem_of_nil.
Defined.

(** The state after a call does not depend on the answer of WaiverDB. *)
Lemma waivers_retrieve_state
    (waiverdb : string → list (gmap string string)
                → Outcome (Response (option (list Waiver))))
    (self : Retriever) (filters : list WaiversRetriever.ref)
    (w : WaiversRetriever.World) :
  let w1 := WaiversRetriever.before_post self filters w in
  (WaiversRetriever.retrieve waiverdb self filters w).2 =
  {| WaiversRetriever.heap := WaiversRetriever.heap w1;
     WaiversRetriever.posts :=
       WaiversRetriever.posts w ++
       [(url self +:+ "/waivers/+filtered",
         (fun r => default ∅ (WaiversRetriever.heap w1 !! r)) <$> filters)] |}.
Proof.
  intros w1. rewrite waivers_retrieve_run. fold w1.
  destruct (waiverdb _ _) as [response|e]; [|reflexivity].
  destruct (_ && _); [reflexivity|].
  destruct (body response); reflexivity.
Qed.

(** C10: the filter mappings that the caller passes are changed in place.
    With a cutoff configured, after the call every mapping in [filters] has
    the key [since] set to the bound, no other mapping has changed, and the
    POST was issued with the mappings in that state; without a cutoff the
    mappings are as before the call. *)
Theorem C10_waivers_filters_mutated
    (waiverdb : string → list (gmap string string)
                → Outcome (Response (option (list Waiver))))
    (ids : list Z) (when : option string) (base_url : string)
    (filters : list WaiversRetriever.ref) (w : WaiversRetriever.World) :
  let self := BaseRetriever.__init__ ids when base_url in
  let bound := "1900-01-01T00:00:00.000000," +:+ default "" when in
  let w' := (WaiversRetriever.retrieve waiverdb self filters w).2 in
  let sent := (fun r => default ∅ (WaiversRetriever.heap w' !! r)) <$> filters in
  WaiversRetriever.posts w' =
    WaiversRetriever.posts w ++ [(base_url +:+ "/waivers/+filtered", sent)]
  ∧ (Py.truthy when = true →
       (∀ r, r ∈ filters →
          WaiversRetriever.heap w' !! r
          = <["since" := bound]> <$> WaiversRetriever.heap w !! r)
       ∧ (∀ r, r ∉ filters →
          WaiversRetriever.heap w' !! r = WaiversRetriever.heap w !! r)
       ∧ ((∀ r, r ∈ filters → is_Some (WaiversRetriever.heap w !! r)) →
          Forall (fun filter_ => filter_ !! "since" = Some bound) sent))
  ∧ (Py.truthy when = false →
       WaiversRetriever.heap w' = WaiversRetriever.heap w).
Proof.
  intros self bound w' sent. subst sent w'.
  rewrite waivers_retrieve_state. cbn [WaiversRetriever.heap WaiversRetriever.posts].
  unfold WaiversRetriever.before_post. subst self bound.
  cbn [BaseRetriever.__init__ since url].
  split; [reflexivity|]. split.
  - intros Hwhen. rewrite Hwhen. cbn [Py.truthy default].
    assert (Htruthy : Py.truthy_str
              ("1900-01-01T00:00:00.000000," +:+ default "" when) = true)
      by reflexivity.
    rewrite Htruthy. cbn [WaiversRetriever.heap].
    split; [|split].
    + intros r Hin. rewrite updated_heap_lookup. by rewrite decide_True.
    + intros r Hnin. rewrite updated_heap_lookup. by rewrite decide_False.
    + intros Hlive. apply Forall_fmap, Forall_forall. intros r Hin. cbn.
      rewrite updated_heap_lookup, decide_True by done.
      destruct (Hlive r Hin) as [d ->]. cbn. apply lookup_insert_eq.
  - intros Hwhen. rewrite Hwhen. reflexivity.
Qed.

Lemma C10_waivers_filters_mutated_witness :
  WaiversRetriever.heap
    (WaiversRetriever.retrieve
       (fun _ _ => Ok {| status_code := 200; body := Some [] |})
       (BaseRetriever.__init__ [] (Some "2021-03-04T05:06:07.000000")
          "https://waiverdb.example.org/api/v1.0")
       [1%positive]
       {| WaiversRetriever.heap :=
            {[ 1%positive := {[ "testcase" := "dist.rpmdeplint" ]} ]};
          WaiversRetriever.posts := [] |}).2
  !! 1%positive
  = Some (<["since" :=
              "1900-01-01T00:00:00.000000,2021-03-04T05:06:07.000000"]>
            {[ "testcase" := "dist.rpmdeplint" ]}).
Proof.
  destruct (C10_waivers_filters_mutated
       (fun _ _ => Ok {| status_code := 200; body := Some [] |})
       [] (Some "2021-03-04T05:06:07.000000")
          "https://waiverdb.example.org/api/v1.0"
       [1%positive]
       {| WaiversRetriever.heap :=
            {[ 1%positive := {[ "testcase" := "dist.rpmdeplint" ]} ]};
          WaiversRetriever.posts := [] |}) as (_ & Hset & _).
  destruct (Hset eq_refl) as (Hin & _ & _).
  etrans; [exact (Hin 1%positive ltac:(left))|].
  cbn [WaiversRetriever.heap]. rewrite lookup_singleton_eq. reflexivity.
Defined.

(* ===================================================================== *)
(** * The results retriever *)
(* ===================================================================== *)

Lemma split_without_separator (sep : ascii) (s : string) :
  Py.contains sep s = false → Py.split sep s = [s].
Proof.
  induction s as [|c s IH]; [reflexivity|].
  cbn [Py.contains Py.split]. intros Hc.
  apply orb_false_elim in Hc as [Hsep Hrest].
  rewrite Hsep, (IH Hrest). reflexivity.
Qed.

(** The staleness check of a retriever that [__init__] has set up never
    fails: the bound has a comma, and the upper edge is the text of the
    cutoff up to its first comma. *)
Lemma results_match_time_init
    (ids : list Z) (when : option string) (base_url : string)
    (results : list Result) :
  ResultsRetriever._results_match_time
    (BaseRetriever.__init__ ids when base_url) results =
  Ok (if Py.truthy when
      then forallb
             (fun result =>
                Py.str_lt (submit_time result)
                  (hd "" (Py.split "," (default "" when))))
             results
      else true).
Proof.
  unfold ResultsRetriever._results_match_time.
  cbn [BaseRetriever.__init__ since].
  destruct (Py.truthy when); [|reflexivity].
  generalize (default "" when). intros cutoff.
  change (default "" (Some ("1900-01-01T00:00:00.000000," +:+ cutoff)))
    with ("1900-01-01T00:00:00.000000," +:+ cutoff).
  change (Py.truthy (Some ("1900-01-01T00:00:00.000000," +:+ cutoff)))
    with true.
  cbn [negb].
  change (Py.split "," ("1900-01-01T00:00:00.000000," +:+ cutoff))
    with ("1900-01-01T00:00:00.000000" :: Py.split "," cutoff).
  pose proof (split_nonempty "," cutoff) as Hne.
  destruct (Py.split "," cutoff) as [|upper rest]; [done|].
  reflexivity.
Qed.

Section ResultsRetriever_properties.
Import ResultsRetriever.
Context {C : Type} `{ExternalCache C}.
Variable OUTCOMES_PASSED : list string.
Variable resultsdb :
  string → gmap string string → Outcome (Response (option (list Result))).

Lemma add_requests_nil (w : @World C) : add_requests [] w = w.
Proof. destruct w. unfold add_requests. cbn. by rewrite app_nil_r. Qed.

Lemma add_requests_app (issued1 issued2 : list (string * gmap string string))
    (w : @World C) :
  add_requests issued2 (add_requests issued1 w)
  = add_requests (issued1 ++ issued2) w.
Proof. unfold add_requests. cbn. by rewrite (assoc_L (++)). Qed.

Lemma retrieve_data_run (self : Retriever) (query : gmap string string)
    (w : @World C) :
  _retrieve_data resultsdb self query w =
  (response_data (resultsdb (url self +:+ "/results/latest") query),
   add_requests [(url self +:+ "/results/latest", query)] w).
Proof.
  unfold _retrieve_data, BaseRetriever._retrieve_data, _make_request,
    raise_for_status, json_data, response_data, add_requests.
  run_M.
  destruct (resultsdb _ query) as [response|e]; [|reflexivity].
  destruct (_ && _); [reflexivity|].
  destruct (body response); reflexivity.
Qed.

Lemma fetch_queries_run (self : Retriever) (params : gmap string string)
    (queries : list (gmap string string)) (results : list Result)
    (w : @World C) :
  fetch_queries resultsdb self params queries results w =
  ((fetched resultsdb self params queries results).1,
   add_requests (fetched resultsdb self params queries results).2 w).
Proof.
  revert results w.
  induction queries as [|query queries IH]; intros results w.
  - cbn. by rewrite add_requests_nil.
  - cbn [fetch_queries fetched]. run_M. rewrite retrieve_data_run.
    destruct (response_data _) as [data|e]; [|reflexivity].
    rewrite IH, add_requests_app.
    destruct (fetched resultsdb self params queries (results ++ data)).
    reflexivity.
Qed.

Lemma fetched_issues_requests (self : Retriever)
    (params : gmap string string) (queries : list (gmap string string))
    (results : list Result) :
  queries ≠ [] → (fetched resultsdb self params queries results).2 ≠ [].
Proof.
  destruct queries as [|query queries]; [done|]. intros _.
  cbn [fetched]. destruct (response_data _); [|done].
  by destruct (fetched resultsdb self params queries _).
Qed.

Lemma query_upstream_run (self : Retriever) (subject : Subject)
    (testcase external_cache_key : option string) (w : @World C) :
  _query_upstream OUTCOMES_PASSED resultsdb self subject testcase
    external_cache_key w =
  let run := fetched resultsdb self (query_params self testcase)
               (result_queries subject) [] in
  match run.1 with
  | Ok results =>
      (Ok results,
       store_results OUTCOMES_PASSED subject testcase external_cache_key
         results (add_requests run.2 w))
  | Raise e => (Raise e, add_requests run.2 w)
  end.
Proof.
  unfold _query_upstream, set_external_cache, store_results. run_M.
  rewrite fetch_queries_run.
  destruct (fetched _ _ _ _ _) as [[results|e] issued]; [|reflexivity].
  cbn [fst snd].
  destruct (negb (Py.truthy testcase));
    destruct (Py.truthy external_cache_key && forallb _ results);
    reflexivity.
Qed.

Lemma retrieve_all_run (self : Retriever) (subject : Subject)
    (testcase : option string) (w : @World C) :
  _retrieve_all OUTCOMES_PASSED resultsdb self (subject, testcase) w =
  if Py.truthy testcase then
    match cache w !! (type subject, identifier subject) with
    | Some all_results =>
        (Ok (filter (fun res => testcase_name res = default "" testcase)
               all_results), w)
    | None =>
        let key := external_key subject (default "" testcase) in
        let miss :=
          _query_upstream OUTCOMES_PASSED resultsdb self subject testcase
            (Some key) w in
        match cache_get (external w) key with
        | Some (result :: results) =>
            match _results_match_time self (result :: results) with
            | Ok true => (Ok (result :: results), w)
            | Ok false => miss
            | Raise e => (Raise e, w)
            end
        | _ => miss
        end
    end
  else _query_upstream OUTCOMES_PASSED resultsdb self subject testcase None w.
Proof.
  unfold _retrieve_all, get_external_cache. run_M.
  destruct (Py.truthy testcase); [|reflexivity].
  destruct (cache w !! _) as [all_results|]; [reflexivity|].
  destruct (cache_get _ _) as [[|result results]|]; try reflexivity.
  cbn [truthy_results default].
  destruct (_results_match_time self _) as [[|]|e]; reflexivity.
Qed.

Lemma external_key_truthy (subject : Subject) (testcase : string) :
  Py.truthy (Some (external_key subject testcase)) = true.
Proof. reflexivity. Qed.

Lemma passed_outcome (result : Result) :
  passed OUTCOMES_PASSED result = true ↔
  ∃ o, outcome result = Some o ∧ o ∈ OUTCOMES_PASSED.
Proof.
  unfold passed. destruct (outcome result) as [o|].
  - rewrite bool_decide_eq_true. naive_solver.
  - naive_solver.
Qed.

Lemma all_passed (results : list Result) :
  forallb (passed OUTCOMES_PASSED) results = true ↔
  Forall (fun result => ∃ o, outcome result = Some o ∧ o ∈ OUTCOMES_PASSED)
    results.
Proof.
  rewrite forallb_forall, Forall_forall.
  split; intros Hall result Hin.
  - apply passed_outcome, Hall. by apply list_elem_of_In.
  - apply passed_outcome, Hall. by apply list_elem_of_In.
Qed.

Lemma store_results_requests (subject : Subject)
    (testcase key : option string) (results : list Result) (w : @World C) :
  requests (store_results OUTCOMES_PASSED subject testcase key results w)
  = requests w.
Proof.
  unfold store_results.
  destruct (negb (Py.truthy testcase)); destruct (_ && _); reflexivity.
Qed.

(** With a test case, the stores leave [self.cache] alone and write the
    external cache when all results passed. *)
Lemma store_results_testcase (subject : Subject)
    (testcase : option string) (key : string) (results : list Result)
    (w : @World C) :
  Py.truthy testcase = true → Py.truthy (Some key) = true →
  store_results OUTCOMES_PASSED subject testcase (Some key) results w =
  if forallb (passed OUTCOMES_PASSED) results
  then {| cache := cache w;
          external := cache_set (external w) key results;
          requests := requests w;
          writes := writes w ++ [(key, results)] |}
  else w.
Proof.
  intros Ht Hk. unfold store_results. rewrite Ht, Hk. cbn [negb andb].
  destruct (forallb _ results); reflexivity.
Qed.

(** Without a key, nothing is written to the external cache. *)
Lemma store_results_no_key (subject : Subject) (testcase : option string)
    (results : list Result) (w : @World C) :
  let w' := store_results OUTCOMES_PASSED subject testcase None results w in
  writes w' = writes w ∧ external w' = external w.
Proof.
  unfold store_results. cbn [Py.truthy andb].
  destruct (negb (Py.truthy testcase)); done.
Qed.

Lemma app_singleton_neq {A} (l : list A) (x : A) : l ++ [x] ≠ l.
Proof.
  intros Heq. apply (f_equal length) in Heq.
  rewrite length_app in Heq. simpl in Heq. lia.
Qed.

(** A call that goes to ResultsDB with a key for the external cache leaves
    a trace: a request, or, when the subject has no query, the entry
    written for the empty result. *)
Lemma query_upstream_trace (self : Retriever) (subject : Subject)
    (testcase : option string) (key : string) (w : @World C) :
  Py.truthy testcase = true → Py.truthy (Some key) = true →
  let w' := (_query_upstream OUTCOMES_PASSED resultsdb self subject testcase
               (Some key) w).2 in
  (result_queries subject ≠ [] →
     (length (requests w) < length (requests w'))%nat)
  ∧ w' ≠ w.
Proof.
  intros Ht Hk w'. subst w'. rewrite query_upstream_run. cbn zeta.
  destruct (result_queries subject) as [|query queries] eqn:Hq.
  - split; [done|]. cbn [fetched fst snd].
    rewrite store_results_testcase by done. cbn [forallb].
    intros Heq. apply (f_equal writes) in Heq. cbn in Heq.
    by apply app_singleton_neq in Heq.
  - pose proof (fetched_issues_requests self (query_params self testcase)
                  (query :: queries) [] ltac:(done)) as Hissued.
    destruct (fetched _ _ _ _ _) as [[results|e] issued].
    + cbn [fst snd] in *.
      assert (Hlen : (length (requests w) <
        length (requests (store_results OUTCOMES_PASSED subject testcase
                            (Some key) results (add_requests issued w))))%nat).
      { rewrite store_results_requests. cbn. rewrite length_app.
        destruct issued; [done|]. cbn. lia. }
      split; [done|]. intros Heq. rewrite Heq in Hlen. lia.
    + cbn [fst snd] in *.
      assert (Hlen : (length (requests w) <
                      length (requests (add_requests issued w)))%nat).
      { cbn. rewrite length_app. destruct issued; [done|]. cbn. lia. }
      split; [done|]. intros Heq. rewrite Heq in Hlen. lia.
Qed.

Lemma ltb_false_leb (s1 s2 : string) :
  String.ltb s1 s2 = false ↔ String.leb s2 s1 = true.
Proof.
  unfold String.ltb, String.leb. rewrite (String.compare_antisym s2 s1).
  destruct (String.compare s1 s2); cbn; split; congruence.
Qed.

(** C3: for a call with a test case that the in-process cache does not
    answer and for which the external cache holds a list of results.
    Without a [since] bound the list always passes the staleness check and
    is returned as it is when it is not empty.  With a bound whose upper
    timestamp is [upper], the list is returned, with nothing queried and no
    state changed, exactly when it is not empty and every [submit_time] is
    strictly less than [upper]; if some result has [submit_time] greater
    than or equal to [upper], the call behaves as on a miss: it goes on to
    query ResultsDB. *)
Theorem C3_staleness_validation
    (ids : list Z) (when : option string) (base_url : string)
    (subject : Subject) (testcase : string) (cached : list Result)
    (w : @World C) :
  let self := BaseRetriever.__init__ ids when base_url in
  let key := external_key subject testcase in
  let call :=
    _retrieve_all OUTCOMES_PASSED resultsdb self (subject, Some testcase) w in
  let miss :=
    _query_upstream OUTCOMES_PASSED resultsdb self subject (Some testcase)
      (Some key) w in
  testcase ≠ "" →
  cache w !! (type subject, identifier subject) = None →
  cache_get (external w) key = Some cached →
  (Py.truthy when = false →
     _results_match_time self cached = Ok true
     ∧ (cached ≠ [] → call = (Ok cached, w)))
  ∧ (∀ upper, when = Some upper → upper ≠ "" →
       Py.contains "," upper = false →
       (call = (Ok cached, w) ↔
          cached ≠ [] ∧
          Forall (fun result => String.ltb (submit_time result) upper = true)
            cached)
       ∧ (Exists (fun result => String.leb upper (submit_time result) = true)
            cached →
          call = miss ∧ call ≠ (Ok cached, w)
          ∧ (result_queries subject ≠ [] →
             (length (requests w) < length (requests call.2))%nat))).
Proof.
  intros self key call miss Htest Hcache Hget.
  assert (Ht : Py.truthy (Some testcase) = true)
    by (by apply truthy_str_true).
  pose proof (query_upstream_trace self subject (Some testcase) key w Ht
                (external_key_truthy subject testcase)) as [Hreq Hworld].
  fold miss in Hreq, Hworld.
  assert (Hcall : call =
    match cached with
    | [] => miss
    | _ :: _ =>
        if (if Py.truthy when
            then forallb
                   (fun result =>
                      Py.str_lt (submit_time result)
                        (hd "" (Py.split "," (default "" when))))
                   cached
            else true)
        then (Ok cached, w) else miss
    end).
  { subst call. rewrite retrieve_all_run, Ht, Hcache. cbn zeta.
    change (default "" (Some testcase)) with testcase.
    fold key. rewrite Hget. fold miss.
    destruct cached as [|result results]; [reflexivity|].
    subst self. rewrite results_match_time_init.
    destruct (Py.truthy when); [|reflexivity].
    destruct (forallb _ _); reflexivity. }
  assert (Hmiss : miss ≠ (Ok cached, w)).
  { intros Heq. apply Hworld. by rewrite Heq. }
  split.
  - intros Hwhen. subst self. rewrite results_match_time_init, Hwhen.
    split; [reflexivity|]. intros Hne. rewrite Hcall, Hwhen.
    by destruct cached.
  - intros upper -> Hupper Hcomma.
    assert (Hw : Py.truthy (Some upper) = true) by (by apply truthy_str_true).
    rewrite Hw in Hcall. change (default "" (Some upper)) with upper in Hcall.
    rewrite (split_without_separator _ _ Hcomma) in Hcall. cbn [hd] in Hcall.
    unfold Py.str_lt in Hcall.
    destruct (forallb (fun result => String.ltb (submit_time result) upper)
                cached) eqn:Hall.
    + (* every result is older than the upper edge *)
      assert (HForall :
        Forall (fun result => String.ltb (submit_time result) upper = true)
          cached).
      { apply Forall_forall. intros result Hin.
        rewrite forallb_forall in Hall. apply Hall.
        by apply list_elem_of_In. }
      split.
      * split.
        -- intros Hacc. split; [|done]. intros ->. by rewrite Hcall in Hacc.
        -- intros [Hne _]. rewrite Hcall. by destruct cached.
      * intros Hex. apply Exists_exists in Hex as (result & Hin & Hleb).
        rewrite Forall_forall in HForall. specialize (HForall _ Hin).
        apply ltb_false_leb in Hleb. congruence.
    + (* some result is not *)
      assert (Hcall' : call = miss) by (rewrite Hcall; by destruct cached).
      split.
      * split.
        -- intros Hacc. rewrite Hcall' in Hacc. done.
        -- intros [_ HForall]. exfalso.
           assert (forallb
                     (fun result => String.ltb (submit_time result) upper)
                     cached = true); [|congruence].
           apply forallb_forall. intros result Hin.
           rewrite Forall_forall in HForall. apply HForall.
           by apply list_elem_of_In.
      * intros _. rewrite Hcall'. done.
Qed.

(** What a call does to the external cache, path by path. *)
Lemma retrieve_all_writes (self : Retriever) (subject : Subject)
    (testcase : option string) (w : @World C) :
  let key := external_key subject (default "" testcase) in
  let call :=
    _retrieve_all OUTCOMES_PASSED resultsdb self (subject, testcase) w in
  if Py.truthy testcase && negb (answered_from_cache self subject testcase w)
  then
    match call.1 with
    | Ok results =>
        if forallb (passed OUTCOMES_PASSED) results
        then writes call.2 = writes w ++ [(key, results)]
             ∧ external call.2 = cache_set (external w) key results
        else writes call.2 = writes w ∧ external call.2 = external w
    | Raise _ => writes call.2 = writes w ∧ external call.2 = external w
    end
  else writes call.2 = writes w ∧ external call.2 = external w.
Proof.
  intros key call. subst call. rewrite retrieve_all_run.
  unfold answered_from_cache.
  destruct (Py.truthy testcase) eqn:Ht; cbn [andb].
  - destruct (cache w !! _) as [all_results|] eqn:Hcache.
    + rewrite bool_decide_eq_true_2 by eauto. done.
    + rewrite bool_decide_eq_false_2 by (by intros [? ?]).
      cbn zeta. cbn [orb]. fold key.
      assert (Hmiss :
        let miss := _query_upstream OUTCOMES_PASSED resultsdb self subject
                      testcase (Some key) w in
        match miss.1 with
        | Ok results =>
            if forallb (passed OUTCOMES_PASSED) results
            then writes miss.2 = writes w ++ [(key, results)]
                 ∧ external miss.2 = cache_set (external w) key results
            else writes miss.2 = writes w ∧ external miss.2 = external w
        | Raise _ => writes miss.2 = writes w ∧ external miss.2 = external w
        end).
      { rewrite query_upstream_run. cbn zeta.
        destruct (fetched _ _ _ _ _) as [[results|e] issued];
          cbn [fst snd]; [|done].
        rewrite store_results_testcase
          by (done || apply external_key_truthy).
        by destruct (forallb _ results). }
      destruct (cache_get (external w) key) as [[|result results]|];
        [exact Hmiss| |exact Hmiss].
      destruct (_results_match_time self (result :: results)) as [[|]|e];
        [done|exact Hmiss|done].
  - rewrite query_upstream_run. cbn zeta.
    destruct (fetched _ _ _ _ _) as [[results|e] issued];
      cbn [fst snd]; [|done].
    destruct (store_results_no_key subject testcase results
                (add_requests issued w)) as [-> ->].
    done.
Qed.

(** C4, as amended: a call writes an entry to the external cache if and
    only if a test case was given, the call was not answered from the
    in-process cache or from an accepted entry of the external cache, the
    queries to ResultsDB succeeded, and every result of the merged
    sequence has an outcome in the passed set; the entry is the merged
    sequence under the key of the subject and test case.  No entry is
    written for a call without a test case or for a sequence with an
    outcome outside the passed set. *)
Theorem C4_external_cache_writes
    (self : Retriever) (subject : Subject) (testcase : option string)
    (w : @World C) :
  let key := external_key subject (default "" testcase) in
  let call :=
    _retrieve_all OUTCOMES_PASSED resultsdb self (subject, testcase) w in
  let all_passed (results : list Result) :=
    Forall (fun result => ∃ o, outcome result = Some o ∧ o ∈ OUTCOMES_PASSED)
      results in
  (writes call.2 ≠ writes w ↔
     Py.truthy testcase = true
     ∧ answered_from_cache self subject testcase w = false
     ∧ ∃ results, call.1 = Ok results ∧ all_passed results)
  ∧ (writes call.2 ≠ writes w →
       ∃ results, call.1 = Ok results
                  ∧ writes call.2 = writes w ++ [(key, results)]
                  ∧ external call.2 = cache_set (external w) key results)
  ∧ (writes call.2 = writes w → external call.2 = external w)
  ∧ (Py.truthy testcase = false → writes call.2 = writes w)
  ∧ (∀ results, call.1 = Ok results → ¬ all_passed results →
       writes call.2 = writes w)
  ∧ (retrieve OUTCOMES_PASSED resultsdb self (subject, testcase) w).2 = call.2.
Proof.
  intros key call all_passed'.
  pose proof (retrieve_all_writes self subject testcase w) as Hw.
  cbn zeta in Hw. fold key call in Hw.
  assert (Hretrieve :
    (retrieve OUTCOMES_PASSED resultsdb self (subject, testcase) w).2
    = call.2).
  { unfold retrieve. rewrite retrieve_run. fold call.
    by destruct call as [[items|e] w']. }
  assert (Hnone : writes call.2 = writes w ∧ external call.2 = external w →
    ¬ (Py.truthy testcase = true
       ∧ answered_from_cache self subject testcase w = false
       ∧ ∃ results, call.1 = Ok results ∧ all_passed' results) →
    (writes call.2 ≠ writes w ↔
       Py.truthy testcase = true
       ∧ answered_from_cache self subject testcase w = false
       ∧ ∃ results, call.1 = Ok results ∧ all_passed' results)
    ∧ (writes call.2 ≠ writes w →
         ∃ results, call.1 = Ok results
                    ∧ writes call.2 = writes w ++ [(key, results)]
                    ∧ external call.2 = cache_set (external w) key results)
    ∧ (writes call.2 = writes w → external call.2 = external w)
    ∧ (Py.truthy testcase = false → writes call.2 = writes w)
    ∧ (∀ results, call.1 = Ok results → ¬ all_passed' results →
         writes call.2 = writes w)
    ∧ (retrieve OUTCOMES_PASSED resultsdb self (subject, testcase) w).2
      = call.2).
  { intros [Hwrites Hext] Hnot. split_and!; done. }
  destruct (Py.truthy testcase) eqn:Ht;
    destruct (answered_from_cache self subject testcase w) eqn:Hans;
    cbn [andb negb] in Hw;
    try (apply Hnone; [exact Hw | by intros (? & ? & _)]).
  destruct call.1 as [results|e] eqn:Hcall;
    [|apply Hnone; [exact Hw | by intros (_ & _ & ? & ? & _)]].
  destruct (forallb (passed OUTCOMES_PASSED) results) eqn:Hpassed.
  - destruct Hw as [Hwrites Hext].
    apply all_passed in Hpassed.
    assert (Hne : writes call.2 ≠ writes w).
    { rewrite Hwrites. apply app_singleton_neq. }
    split_and!; try done.
    + split; [intros _; eauto | done].
    + eauto.
    + intros results' [= <-] Hbad. done.
  - apply Hnone; [exact Hw|].
    intros (_ & _ & results' & [= <-] & Hall).
    apply all_passed in Hall. congruence.
Qed.

(** The outcome of a query to ResultsDB does not depend on the state of
    the retriever. *)
Lemma query_upstream_outcome (self : Retriever) (subject : Subject)
    (testcase external_cache_key : option string) (w : @World C) :
  (_query_upstream OUTCOMES_PASSED resultsdb self subject testcase
     external_cache_key w).1
  = (fetched resultsdb self (query_params self testcase)
       (result_queries subject) []).1.
Proof.
  rewrite query_upstream_run. cbn zeta.
  by destruct (fetched _ _ _ _ _) as [[results|e] issued].
Qed.

(** With a test case and nothing in the in-process cache, a call either
    returns an accepted entry of the external cache and changes nothing,
    or has the outcome of the query to ResultsDB. *)
Lemma retrieve_all_hit_or_miss (self : Retriever) (subject : Subject)
    (testcase : option string) (w : @World C) :
  Py.truthy testcase = true →
  cache w !! (type subject, identifier subject) = None →
  (∀ results, ∃ b, _results_match_time self results = Ok b) →
  let key := external_key subject (default "" testcase) in
  let call :=
    _retrieve_all OUTCOMES_PASSED resultsdb self (subject, testcase) w in
  (∃ cached, cache_get (external w) key = Some cached ∧ cached ≠ []
             ∧ _results_match_time self cached = Ok true
             ∧ call = (Ok cached, w))
  ∨ ((¬ ∃ cached, cache_get (external w) key = Some cached ∧ cached ≠ []
                  ∧ _results_match_time self cached = Ok true)
     ∧ call = _query_upstream OUTCOMES_PASSED resultsdb self subject
                testcase (Some key) w).
Proof.
  intros Ht Hcache Htotal key call. subst call.
  rewrite retrieve_all_run, Ht, Hcache. cbn zeta. fold key.
  destruct (cache_get (external w) key) as [[|result results]|] eqn:Hget.
  - right. split; [|done]. by intros (cached & [= <-] & Hne & _).
  - destruct (Htotal (result :: results)) as [[|] Hb]; rewrite Hb.
    + left. by exists (result :: results).
    + right. split; [|done].
      intros (cached & [= <-] & _ & Hacc). congruence.
  - right. split; [|done]. by intros (cached & [=] & _).
Qed.

(** Calling twice: the second call has the outcome of the first, and when
    the first call left in the external cache a non-empty entry that
    passes the staleness check, the second call changes nothing. *)
Lemma retrieve_all_twice
    (ids : list Z) (when : option string) (base_url : string)
    (subject : Subject) (testcase : option string) (w : @World C) :
  (∀ c k v, cache_get (cache_set c k v) k = Some v
            ∨ cache_get (cache_set c k v) k = None) →
  let self := BaseRetriever.__init__ ids when base_url in
  let first :=
    _retrieve_all OUTCOMES_PASSED resultsdb self (subject, testcase) w in
  let second :=
    _retrieve_all OUTCOMES_PASSED resultsdb self (subject, testcase)
      first.2 in
  second.1 = first.1
  ∧ (∀ key value,
       writes first.2 = writes w ++ [(key, value)] →
       cache_get (external first.2) key = Some value →
       value ≠ [] →
       _results_match_time self value = Ok true →
       second.2 = first.2).
Proof.
  intros Hlaw self first second.
  assert (Htotal : ∀ results, ∃ b, _results_match_time self results = Ok b).
  { intros results. subst self. rewrite results_match_time_init. eauto. }
  set (run := fetched resultsdb self (query_params self testcase)
                (result_queries subject) []).
  destruct (Py.truthy testcase) eqn:Ht.
  - destruct (cache w !! (type subject, identifier subject))
      as [all_results|] eqn:Hcache.
    + (* answered from the in-process cache *)
      assert (Hfirst : first =
        (Ok (filter (fun res => testcase_name res = default "" testcase)
               all_results), w)).
      { subst first. by rewrite retrieve_all_run, Ht, Hcache. }
      subst second. rewrite Hfirst. cbn [fst snd]. fold first.
      rewrite Hfirst. cbn [fst snd]. split; [done|].
      intros key value Hw. by apply symmetry, app_singleton_neq in Hw.
    + destruct (retrieve_all_hit_or_miss self subject testcase w Ht Hcache
                  Htotal) as [(cached & Hget & Hne & Hacc & Hcall)
                             |[Hnohit Hcall]];
        fold first in Hcall.
      * (* answered from the external cache *)
        subst second. rewrite Hcall. cbn [fst snd]. fold first.
        rewrite Hcall. cbn [fst snd]. split; [done|].
        intros key value Hw. by apply symmetry, app_singleton_neq in Hw.
      * (* answered by ResultsDB *)
        assert (Hfirst1 : first.1 = run.1).
        { rewrite Hcall. apply query_upstream_outcome. }
        assert (Hcache1 :
          cache first.2 !! (type subject, identifier subject) = None).
        { rewrite Hcall, query_upstream_run. cbn zeta. fold run.
          destruct run.1 as [results|e]; cbn [snd]; [|done].
          rewrite store_results_testcase
            by (done || apply external_key_truthy).
          by destruct (forallb _ results). }
        destruct (retrieve_all_hit_or_miss self subject testcase first.2 Ht
                    Hcache1 Htotal) as [(cached & Hget & Hne & Hacc & Hcall2)
                                       |[Hnohit2 Hcall2]];
          fold second in Hcall2.
        -- (* the second call finds an accepted entry: the one just
              written, as the first call found none *)
           assert (Hwritten : first.1 = Ok cached).
           { revert Hget. rewrite Hcall, query_upstream_run. cbn zeta.
             fold run.
             destruct run.1 as [results|e] eqn:Hrun; cbn [fst snd].
             - rewrite store_results_testcase
                 by (done || apply external_key_truthy).
               destruct (forallb _ results).
               + cbn [external].
                 destruct (Hlaw (external (add_requests run.2 w))
                             (external_key subject (default "" testcase))
                             results) as [-> | ->]; [|done].
                 by intros [= ->].
               + cbn [external add_requests]. intros Hget.
                 destruct Hnohit. eauto.
             - cbn [external add_requests]. intros Hget.
               destruct Hnohit. eauto. }
           rewrite Hcall2. cbn [fst snd]. split; [done|]. done.
        -- split.
           ++ rewrite Hcall2, Hfirst1. apply query_upstream_outcome.
           ++ intros key value Hw Hget Hne Hacc. exfalso.
              apply Hnohit2. exists value.
              assert (key = external_key subject (default "" testcase))
                as <-; [|done].
              revert Hw. rewrite Hcall, query_upstream_run. cbn zeta.
              fold run.
              destruct run.1 as [results|e]; cbn [fst snd].
              ** rewrite store_results_testcase
                   by (done || apply external_key_truthy).
                 destruct (forallb _ results); cbn [writes add_requests].
                 --- intros Hw. apply app_inj_tail in Hw as [_ [= -> _]].
                     done.
                 --- intros Hw. by apply symmetry, app_singleton_neq in Hw.
              ** cbn [writes add_requests].
                 intros Hw. by apply symmetry, app_singleton_neq in Hw.
  - (* no test case: both calls query ResultsDB *)
    assert (Hcall : ∀ w', _retrieve_all OUTCOMES_PASSED resultsdb self
                            (subject, testcase) w'
                          = _query_upstream OUTCOMES_PASSED resultsdb self
                              subject testcase None w').
    { intros w'. by rewrite retrieve_all_run, Ht. }
    split.
    + subst second first. by rewrite !Hcall, !query_upstream_outcome.
    + intros key value Hw. exfalso. revert Hw. subst first.
      rewrite Hcall, query_upstream_run. cbn zeta. fold run.
      destruct run.1 as [results|e]; cbn [fst snd].
      * destruct (store_results_no_key subject testcase results
                    (add_requests run.2 w)) as [-> _].
        cbn [writes add_requests].
        intros Hw. by apply symmetry, app_singleton_neq in Hw.
      * cbn [writes add_requests].
        intros Hw. by apply symmetry, app_singleton_neq in Hw.
Qed.

(** [retrieve] has the state of [_retrieve_all] and its outcome, filtered. *)
Lemma results_retrieve_run (self : Retriever) (subject : Subject)
    (testcase : option string) (w : @World C) :
  let call :=
    _retrieve_all OUTCOMES_PASSED resultsdb self (subject, testcase) w in
  retrieve OUTCOMES_PASSED resultsdb self (subject, testcase) w =
  (match call.1 with
   | Ok items =>
       Ok (filter (fun item => item_id item ∉ ignore_ids self) items)
   | Raise e => Raise e
   end, call.2).
Proof.
  intros call. unfold retrieve. rewrite retrieve_run. fold call.
  by destruct call as [[items|e] w'].
Qed.

(** C5, as amended: on an external cache whose get after a set answers
    the value set or nothing, calling [retrieve] twice with the same
    subject and test case and an unchanged ResultsDB yields the same
    output, for every result set, the empty one included; and when the
    first call left in the external cache a non-empty result list that
    passes the staleness check, the second call issues no request and
    changes nothing. *)
Theorem C5_retrieve_twice
    (ids : list Z) (when : option string) (base_url : string)
    (subject : Subject) (testcase : option string) (w : @World C) :
  (∀ c k v, cache_get (cache_set c k v) k = Some v
            ∨ cache_get (cache_set c k v) k = None) →
  let self := BaseRetriever.__init__ ids when base_url in
  let first :=
    retrieve OUTCOMES_PASSED resultsdb self (subject, testcase) w in
  let second :=
    retrieve OUTCOMES_PASSED resultsdb self (subject, testcase) first.2 in
  second.1 = first.1
  ∧ (∀ key value,
       writes first.2 = writes w ++ [(key, value)] →
       cache_get (external first.2) key = Some value →
       value ≠ [] →
       _results_match_time self value = Ok true →
       requests second.2 = requests first.2 ∧ second.2 = first.2).
Proof.
  intros Hlaw self first second.
  destruct (retrieve_all_twice ids when base_url subject testcase w Hlaw)
    as [Hsame Hquiet].
  fold self in Hsame, Hquiet.
  subst second first. rewrite !results_retrieve_run. cbn [fst snd].
  split.
  - by rewrite Hsame.
  - intros key value Hw Hget Hne Hacc.
    rewrite (Hquiet key value Hw Hget Hne Hacc). done.
Qed.

End ResultsRetriever_properties.


(** The in-memory backend answers what was set; the null backend answers
    nothing. *)
Lemma memory_backend_get_set (c : gmap string (list Result)) (k : string)
    (v : list Result) :
  cache_get (cache_set c k v) k = Some v.
Proof. apply lookup_insert_eq. Qed.

Lemma null_backend_get_set (c : unit) (k : string) (v : list Result) :
  cache_get (cache_set c k v) k = None.
Proof. reflexivity. Qed.

Lemma C3_staleness_validation_witness :
  let cached := [Examples.rpmdeplint 7 "PASSED" "2021-03-05T00:00:00.000000"] in
  let w := Examples.world ∅ {[ Examples.bash_key := cached ]} in
  let self := BaseRetriever.__init__ [] (Some "2021-03-04T05:06:07.000000")
                Examples.resultsdb_url in
  ResultsRetriever._retrieve_all Examples.OUTCOMES_PASSED
    (Examples.answering []) self (Examples.bash, Some "dist.rpmdeplint") w
  = ResultsRetriever._query_upstream Examples.OUTCOMES_PASSED
      (Examples.answering []) self Examples.bash (Some "dist.rpmdeplint")
      (Some Examples.bash_key) w.
Proof.
  intros cached w self.
  destruct (C3_staleness_validation Examples.OUTCOMES_PASSED
              (Examples.answering [])
              [] (Some "2021-03-04T05:06:07.000000") Examples.resultsdb_url
              Examples.bash "dist.rpmdeplint" cached w
              ltac:(discriminate) eq_refl
              (lookup_singleton_eq Examples.bash_key cached))
    as [_ Hbound].
  destruct (Hbound "2021-03-04T05:06:07.000000" eq_refl
              ltac:(discriminate) eq_refl) as [_ Hstale].
  apply Hstale. apply Exists_cons_hd. reflexivity.
Defined.

Lemma C4_external_cache_writes_witness :
  ResultsRetriever.writes
    (ResultsRetriever._retrieve_all Examples.OUTCOMES_PASSED
       (Examples.answering
          [Examples.rpmdeplint 7 "FAILED" "2021-03-01T00:00:00.000000"])
       (BaseRetriever.__init__ [] None Examples.resultsdb_url)
       (Examples.bash, Some "dist.rpmdeplint") (Examples.world ∅ ∅)).2
  = [].
Proof.
  destruct (C4_external_cache_writes Examples.OUTCOMES_PASSED
       (Examples.answering
          [Examples.rpmdeplint 7 "FAILED" "2021-03-01T00:00:00.000000"])
       (BaseRetriever.__init__ [] None Examples.resultsdb_url)
       Examples.bash (Some "dist.rpmdeplint") (Examples.world ∅ ∅))
    as (_ & _ & _ & _ & Hfailed & _).
  apply (Hfailed
           [Examples.rpmdeplint 7 "FAILED" "2021-03-01T00:00:00.000000"]).
  - vm_compute. reflexivity.
  - intros Hall. apply Forall_cons in Hall as [(o & [= <-] & Hin) _].
    vm_compute in Hin. set_solver.
Defined.

(** C4 as stated fails: a call with a test case that the in-process cache
    answers returns only passing results and writes nothing. *)
Lemma C4_counterexample_in_process_cache :
  let passing := Examples.rpmdeplint 7 "PASSED" "2021-03-01T00:00:00.000000" in
  let w := Examples.world
             {[ ("koji_build", "bash-5.1-2.fc34") := [passing] ]} ∅ in
  let call :=
    ResultsRetriever._retrieve_all Examples.OUTCOMES_PASSED
      Examples.unreachable
      (BaseRetriever.__init__ [] None Examples.resultsdb_url)
      (Examples.bash, Some "dist.rpmdeplint") w in
  Py.truthy (Some "dist.rpmdeplint") = true
  ∧ call.1 = Ok [passing]
  ∧ ResultsRetriever.passed Examples.OUTCOMES_PASSED passing = true
  ∧ ResultsRetriever.writes call.2 = []
  ∧ ResultsRetriever.external call.2 = ∅.
Proof. vm_compute. repeat split; reflexivity. Qed.

Lemma C5_retrieve_twice_witness :
  let passing := Examples.rpmdeplint 7 "PASSED" "2021-03-01T00:00:00.000000" in
  let self := BaseRetriever.__init__ [] None Examples.resultsdb_url in
  let first :=
    ResultsRetriever.retrieve Examples.OUTCOMES_PASSED
      (Examples.answering [passing]) self
      (Examples.bash, Some "dist.rpmdeplint") (Examples.world ∅ ∅) in
  let second :=
    ResultsRetriever.retrieve Examples.OUTCOMES_PASSED
      (Examples.answering [passing]) self
      (Examples.bash, Some "dist.rpmdeplint") first.2 in
  second.1 = first.1
  ∧ ResultsRetriever.requests second.2 = ResultsRetriever.requests first.2.
Proof.
  intros passing self first second.
  destruct (C5_retrieve_twice Examples.OUTCOMES_PASSED
              (Examples.answering [passing]) [] None Examples.resultsdb_url
              Examples.bash (Some "dist.rpmdeplint") (Examples.world ∅ ∅)
              (fun c k v => or_introl (memory_backend_get_set c k v)))
    as [Hsame Hquiet].
  split; [exact Hsame|].
  apply (Hquiet Examples.bash_key [passing]).
  - vm_compute. reflexivity.
  - vm_compute. reflexivity.
  - discriminate.
  - reflexivity.
Defined.

(** C5 as stated fails for the empty result set: the first call writes the
    empty list to the external cache, and the second call queries
    ResultsDB again. *)
Lemma C5_counterexample_empty_results :
  let self := BaseRetriever.__init__ [] None Examples.resultsdb_url in
  let first :=
    ResultsRetriever.retrieve Examples.OUTCOMES_PASSED
      (Examples.answering []) self
      (Examples.bash, Some "dist.rpmdeplint") (Examples.world ∅ ∅) in
  let second :=
    ResultsRetriever.retrieve Examples.OUTCOMES_PASSED
      (Examples.answering []) self
      (Examples.bash, Some "dist.rpmdeplint") first.2 in
  first.1 = Ok []
  ∧ ResultsRetriever.writes first.2 = [(Examples.bash_key, [])]
  ∧ cache_get (ResultsRetriever.external first.2) Examples.bash_key = Some []
  ∧ length (ResultsRetriever.requests first.2) = 1%nat
  ∧ length (ResultsRetriever.requests second.2) = 2%nat.
Proof. vm_compute. repeat split; reflexivity. Qed.

(* ===================================================================== *)
(** * More on the provenance parser *)
(* ===================================================================== *)

Lemma string_length_app (a b : string) :
  String.length (a +:+ b) = (String.length a + String.length b)%nat.
Proof. induction a as [|c a IH]; simpl; [done | by f_equal]. Qed.

Lemma substring_all (b : string) : String.substring 0 (String.length b) b = b.
Proof. induction b as [|c b IH]; simpl; [done | by f_equal]. Qed.

Lemma substring_after (a b : string) :
  String.substring (String.length a) (String.length b) (a +:+ b) = b.
Proof. induction a as [|c a IH]; simpl; [apply substring_all | exact IH]. Qed.

Lemma substring_before (a b : string) :
  String.substring 0 (String.length a) (a +:+ b) = a.
Proof.
  induction a as [|c a IH]; simpl; [by destruct b | by f_equal].
Qed.

Lemma endswith_app (a b : string) : Py.endswith b (a +:+ b) = true.
Proof.
  unfold Py.endswith. rewrite string_length_app.
  replace (String.length a + String.length b - String.length b)%nat
    with (String.length a) by lia.
  rewrite substring_after, String.eqb_refl, andb_true_r.
  apply Nat.leb_le. lia.
Qed.

Lemma drop_right_app (a b : string) :
  Py.drop_right (String.length b) (a +:+ b) = a.
Proof.
  unfold Py.drop_right. rewrite string_length_app.
  replace (String.length a + String.length b - String.length b)%nat
    with (String.length a) by lia.
  apply substring_before.
Qed.

Lemma re_sub_dot_git_app (name : string) :
  Py.re_sub_dot_git (name +:+ ".git") = name.
Proof.
  unfold Py.re_sub_dot_git. rewrite endswith_app.
  exact (drop_right_app name ".git").
Qed.

Lemma contains_app (sep : ascii) (a b : string) :
  Py.contains sep (a +:+ b) = Py.contains sep a || Py.contains sep b.
Proof.
  induction a as [|c a IH]; simpl; [done|]. by rewrite IH, orb_assoc.
Qed.

Lemma split_app_sep (sep : ascii) (a b : string) :
  Py.split sep (a +:+ String sep b) = Py.split sep a ++ Py.split sep b.
Proof.
  induction a as [|c a IH]; simpl.
  - by rewrite Ascii.eqb_refl.
  - rewrite IH. destruct (Ascii.eqb c sep); [done|].
    pose proof (split_nonempty sep a) as Hne.
    by destruct (Py.split sep a).
Qed.

Lemma split_pieces_free (sep : ascii) (s piece : string) :
  piece ∈ Py.split sep s → Py.contains sep piece = false.
Proof.
  revert piece. induction s as [|c s IH]; intros piece; cbn [Py.split].
  - intros ->%list_elem_of_singleton. done.
  - destruct (Ascii.eqb c sep) eqn:Hc.
    + intros [->|Hin]%elem_of_cons; [done | by apply IH].
    + pose proof (split_nonempty sep s) as Hne.
      destruct (Py.split sep s) as [|h t]; [done|]. cbn [Py.push_head].
      intros [->|Hin]%elem_of_cons.
      * cbn. rewrite Hc. apply IH. left.
      * apply IH. by right.
Qed.

Lemma last_elem_of {A} (l : list A) (d : A) : l ≠ [] → List.last l d ∈ l.
Proof.
  induction l as [|x [|y l] IH]; intros Hne; [done | left |].
  right. by apply IH.
Qed.

Lemma substring_prefix_free (sep : ascii) (n : nat) (s : string) :
  Py.contains sep s = false →
  Py.contains sep (String.substring 0 n s) = false.
Proof.
  revert n. induction s as [|c s IH]; intros [|n]; cbn; try done.
  intros [Hc Hs]%orb_false_elim. rewrite Hc. by apply IH.
Qed.

Lemma re_sub_dot_git_free (sep : ascii) (s : string) :
  Py.contains sep Py.lf = false →
  Py.contains sep s = false → Py.contains sep (Py.re_sub_dot_git s) = false.
Proof.
  intros Hlf Hs. unfold Py.re_sub_dot_git, Py.drop_right.
  destruct (Py.endswith ".git" s); [by apply substring_prefix_free|].
  destruct (Py.endswith _ s); [|done].
  rewrite contains_app, Hlf, orb_false_r. by apply substring_prefix_free.
Qed.

Lemma namespace_free (p : string) :
  Py.contains "/" (ProvenanceSpec.namespace p) = false.
Proof.
  unfold ProvenanceSpec.namespace.
  destruct (3 <=? length (Py.split "/" p))%nat; [|done].
  destruct (Py.split "/" p !! _) as [piece|] eqn:Hpiece; [|done].
  apply (split_pieces_free "/" p). by eapply list_elem_of_lookup_2.
Qed.

Lemma last_segment_free (p : string) :
  Py.contains "/" (ProvenanceSpec.last_segment p) = false.
Proof.
  apply (split_pieces_free "/" p), last_elem_of, split_nonempty.
Qed.

(** X1: a source whose path ends in [/ns/pkg.git], with [ns] and [pkg]
    free of slashes, and whose fragment is not empty, is parsed to
    [(ns, pkg, fragment)], whatever comes before in the path. *)
Theorem X1_scm_dist_git_layout
    (urlparse : string → option ParseResult)
    (nvr source koji_url : string) (u : ParseResult)
    (prefix ns pkg : string) :
  source ≠ "" →
  urlparse source = Some u →
  fragment u ≠ "" →
  path u = prefix +:+ "/" +:+ ns +:+ "/" +:+ pkg +:+ ".git" →
  Py.contains "/" ns = false →
  Py.contains "/" pkg = false →
  retrieve_scm_from_koji_build urlparse nvr (Some source) koji_url
  = Ok (ns, pkg, fragment u).
Proof.
  intros Hsrc Hparse Hfrag Hpath Hns Hpkg.
  rewrite retrieve_scm_from_koji_build_cases. simpl.
  rewrite (proj2 (truthy_str_true source) Hsrc). simpl.
  rewrite Hparse, (proj2 (truthy_str_true (fragment u)) Hfrag). simpl.
  assert (Hsplit : Py.split "/" (path u)
                   = Py.split "/" prefix ++ [ns; pkg +:+ ".git"]).
  { rewrite Hpath.
    change (prefix +:+ "/" +:+ ns +:+ "/" +:+ pkg +:+ ".git")
      with (prefix +:+ String "/" (ns +:+ String "/" (pkg +:+ ".git"))).
    rewrite !split_app_sep.
    rewrite (split_without_separator "/" ns Hns).
    rewrite (split_without_separator "/" (pkg +:+ ".git"))
      by (by rewrite contains_app, Hpkg).
    reflexivity. }
  pose proof (split_nonempty "/" prefix) as Hne.
  assert (Hlen : (1 ≤ length (Py.split "/" prefix))%nat)
    by (destruct (Py.split "/" prefix); [done | cbn; lia]).
  assert (Hnamespace : ProvenanceSpec.namespace (path u) = ns).
  { unfold ProvenanceSpec.namespace. rewrite Hsplit, length_app.
    cbn [length].
    rewrite (proj2 (Nat.leb_le 3 _)) by lia.
    replace (length (Py.split "/" prefix) + 2 - 2)%nat
      with (length (Py.split "/" prefix) + 0)%nat by lia.
    by rewrite lookup_app_r, Nat.add_0_r, Nat.sub_diag by lia. }
  assert (Hlast : ProvenanceSpec.last_segment (path u) = pkg +:+ ".git").
  { unfold ProvenanceSpec.last_segment. rewrite Hsplit.
    change [ns; pkg +:+ ".git"] with ([ns] ++ [pkg +:+ ".git"]).
    by rewrite (assoc_L (++)), List.last_last. }
  by rewrite Hnamespace, Hlast, re_sub_dot_git_app.
Qed.

Lemma X1_scm_dist_git_layout_witness :
  retrieve_scm_from_koji_build urllib_parse.urlparse "bash-5.1-2.fc34"
    (Some "git+https://src.example.org/forks/jdoe/rpms/bash.git?#deadbeef")
    "https://koji.example.org/kojihub"
  = Ok ("rpms", "bash", "deadbeef").
Proof.
  exact (X1_scm_dist_git_layout urllib_parse.urlparse "bash-5.1-2.fc34"
           "git+https://src.example.org/forks/jdoe/rpms/bash.git?#deadbeef"
           "https://koji.example.org/kojihub"
           {| scheme := "git+https"; netloc := "src.example.org";
              path := "/forks/jdoe/rpms/bash.git"; params := ""; query := "";
              fragment := "deadbeef" |}
           "/forks/jdoe" "rpms" "bash"
           ltac:(discriminate) eq_refl ltac:(discriminate) eq_refl
           eq_refl eq_refl).
Defined.

(** X2: whenever the parser returns, neither the namespace nor the package
    name contains a slash, the revision is not empty, and the revision is
    the fragment of the parsed source. *)
Theorem X2_scm_components
    (urlparse : string → option ParseResult)
    (nvr : string) (source : option string) (koji_url : string)
    (ns pkg rev : string) :
  retrieve_scm_from_koji_build urlparse nvr source koji_url
    = Ok (ns, pkg, rev) →
  Py.contains "/" ns = false
  ∧ Py.contains "/" pkg = false
  ∧ rev ≠ ""
  ∧ ∃ s u, source = Some s ∧ s ≠ "" ∧ urlparse s = Some u
           ∧ rev = fragment u.
Proof.
  rewrite retrieve_scm_from_koji_build_cases.
  destruct (Py.truthy source) eqn:Htruthy; cbn [negb]; [|done].
  destruct source as [s|]; [|done]. cbn in Htruthy.
  change (default "" (Some s)) with s.
  destruct (urlparse s) as [u|] eqn:Hparse; [|done].
  destruct (Py.truthy_str (fragment u)) eqn:Hfrag; cbn [negb]; [|done].
  intros [= <- <- <-].
  split; [apply namespace_free|].
  split; [apply re_sub_dot_git_free; [done | apply last_segment_free]|].
  split; [by apply truthy_str_true|].
  exists s, u. by rewrite <- truthy_str_true.
Qed.

Lemma X2_scm_components_witness :
  Py.contains "/" "rpms" = false ∧ Py.contains "/" "bash" = false.
Proof.
  destruct (X2_scm_components urllib_parse.urlparse "bash-5.1-2.fc34"
              (Some "git+https://src.example.org/rpms/bash.git#deadbeef")
              "https://koji.example.org/kojihub" "rpms" "bash" "deadbeef"
              eq_refl) as (Hns & Hpkg & _).
  exact (conj Hns Hpkg).
Defined.

(* ===================================================================== *)
(** * The Koji build lookups *)
(* ===================================================================== *)

Lemma original_url_nested (fields : list (string * xmlrpc_value))
    (v : xmlrpc_value) :
  original_url (XStruct fields) = inl v ↔ has_original_url fields v.
Proof.
  unfold original_url, has_original_url, Value.subscript.
  destruct (Value.member fields "extra") as [extra|] eqn:Hextra.
  - destruct extra as [| | | | | | | |extra]; try (by naive_solver).
    destruct (Value.member extra "source") as [source|] eqn:Hsource.
    + destruct source as [| | | | | | | |source]; try (by naive_solver).
      destruct (Value.member source "original_url") as [w|] eqn:Hurl;
        naive_solver.
    + naive_solver.
  - naive_solver.
Qed.

Section KojiBuild_properties.
Variable Timeout : Type.
Variable REQUESTS_TIMEOUT : Timeout + Timeout * Timeout.
Variable getBuild : string → Timeout → string → KojiOutcome xmlrpc_value.

(** The lookup on a build record that is a non-empty mapping. *)
Lemma koji_lookup_struct (nvr koji_url : string)
    (fields : list (string * xmlrpc_value)) :
  getBuild koji_url (_requests_timeout Timeout REQUESTS_TIMEOUT) nvr
    = Returned (XStruct fields) →
  fields ≠ [] →
  retrieve_koji_task_id_and_source Timeout REQUESTS_TIMEOUT getBuild
    nvr koji_url
  = Returned
      (default XNone (Value.member fields "task_id"),
       match original_url (XStruct fields) with
       | inl v => v
       | inr _ => default XNone (Value.member fields "source")
       end).
Proof.
  intros Hbuild Hne. unfold retrieve_koji_task_id_and_source.
  rewrite Hbuild. destruct fields as [|field fields]; [done|].
  cbn [Value.truthy negb Value.get].
  by destruct (original_url _).
Qed.

(** X3: for a build record that is a non-empty mapping the lookup returns
    the [task_id] member, or [None] without one, and as source the value
    under [extra], [source], [original_url] whenever these three lookups
    succeed, whatever that value is; in every other case the source is the
    top-level [source] member, or [None] without one. *)
Theorem X3_koji_source_selection
    (nvr koji_url : string) (fields : list (string * xmlrpc_value)) :
  getBuild koji_url (_requests_timeout Timeout REQUESTS_TIMEOUT) nvr
    = Returned (XStruct fields) →
  fields ≠ [] →
  let r := retrieve_koji_task_id_and_source Timeout REQUESTS_TIMEOUT getBuild
             nvr koji_url in
  let task_id := default XNone (Value.member fields "task_id") in
  (∀ v, has_original_url fields v → r = Returned (task_id, v))
  ∧ ((¬ ∃ v, has_original_url fields v) →
     r = Returned (task_id, default XNone (Value.member fields "source"))).
Proof.
  intros Hbuild Hne r task_id. subst r task_id.
  rewrite (koji_lookup_struct nvr koji_url fields Hbuild Hne).
  split.
  - intros v Hv. apply original_url_nested in Hv. by rewrite Hv.
  - intros Hnone. destruct (original_url (XStruct fields)) as [v|e] eqn:Hv;
      [|done].
    destruct Hnone. exists v. by apply original_url_nested.
Qed.

(** X4: the lookup raises the not-found error exactly when the build that
    Koji answered is false (nil, an empty mapping, zero, an empty string or
    list); a true value that is not a mapping raises [AttributeError]; the
    lookup returns exactly for a non-empty mapping. *)
Theorem X4_koji_build_not_found
    (nvr koji_url : string) (build : xmlrpc_value) :
  getBuild koji_url (_requests_timeout Timeout REQUESTS_TIMEOUT) nvr
    = Returned build →
  let r := retrieve_koji_task_id_and_source Timeout REQUESTS_TIMEOUT getBuild
             nvr koji_url in
  (r = Raised (Exn (NotFound (not_found_message nvr koji_url)))
   ↔ Value.truthy build = false)
  ∧ (r = Raised AttributeError
     ↔ Value.truthy build = true ∧ ∀ fields, build ≠ XStruct fields)
  ∧ ((∃ task_id source, r = Returned (task_id, source))
     ↔ ∃ fields, build = XStruct fields ∧ fields ≠ []).
Proof.
  intros Hbuild r. subst r. unfold retrieve_koji_task_id_and_source.
  rewrite Hbuild.
  destruct (Value.truthy build) eqn:Htruthy; cbn [negb].
  - destruct build as [| | | | | | | |fields]; cbn [Value.get];
      try (split_and!; naive_solver).
    assert (Hne : fields ≠ []) by (by destruct fields).
    destruct (original_url (XStruct fields)) as [v|e];
      split_and!; naive_solver.
  - split_and!; try naive_solver.
    split; [naive_solver|]. intros (fields & -> & Hne).
    by destruct fields.
Qed.

End KojiBuild_properties.

Lemma X3_koji_source_selection_witness :
  retrieve_koji_task_id_and_source unit (inl tt)
    (fun _ _ _ =>
       Returned (XStruct
         [("task_id", XInt 42);
          ("source", XStr "git://old.example.org/bash#0");
          ("extra",
           XStruct [("source",
                     XStruct [("original_url", XNone)])])]))
    "bash-5.1-2.fc34" "https://koji.example.org/kojihub"
  = Returned (XInt 42, XNone).
Proof.
  apply (X3_koji_source_selection unit (inl tt)
           (fun _ _ _ =>
              Returned (XStruct
                [("task_id", XInt 42);
                 ("source", XStr "git://old.example.org/bash#0");
                 ("extra",
                  XStruct [("source",
                            XStruct [("original_url", XNone)])])]))
           "bash-5.1-2.fc34" "https://koji.example.org/kojihub" _
           eq_refl ltac:(discriminate)).
  eexists _, _. split; [reflexivity|]. split; reflexivity.
Defined.

Lemma X4_koji_build_not_found_witness :
  retrieve_koji_task_id_and_source unit (inl tt)
    (fun _ _ _ => Returned (XStruct []))
    "bash-5.1-2.fc34" "https://koji.example.org/kojihub"
  = Raised (Exn (NotFound
      (not_found_message "bash-5.1-2.fc34"
         "https://koji.example.org/kojihub"))).
Proof.
  apply (X4_koji_build_not_found unit (inl tt)
           (fun _ _ _ => Returned (XStruct []))
           "bash-5.1-2.fc34" "https://koji.example.org/kojihub"
           (XStruct []) eq_refl).
  reflexivity.
Defined.

Section ScmFromKoji_properties.
Variable Timeout : Type.
Variable REQUESTS_TIMEOUT : Timeout + Timeout * Timeout.
Variable getBuild : string → Timeout → string → KojiOutcome xmlrpc_value.
Variable urlparse : string → option ParseResult.
Variable KOJI_BASE_URL : string.
Variable other_source :
  string → xmlrpc_value → string → KojiOutcome (string * string * string).

Lemma scm_of_empty_source (nvr koji_url : string) :
  retrieve_scm_from_koji_build urlparse nvr (Some "") koji_url
  = retrieve_scm_from_koji_build urlparse nvr None koji_url.
Proof. reflexivity. Qed.

(** What the resolver does once the lookup has returned a source. *)
Lemma scm_from_koji_returned (nvr : string) (task_id source : xmlrpc_value) :
  retrieve_koji_task_id_and_source Timeout REQUESTS_TIMEOUT getBuild
    nvr KOJI_BASE_URL = Returned (task_id, source) →
  retrieve_scm_from_koji Timeout REQUESTS_TIMEOUT getBuild urlparse
    KOJI_BASE_URL other_source nvr
  = if negb (Value.truthy source)
    then of_Outcome
           (retrieve_scm_from_koji_build urlparse nvr None KOJI_BASE_URL)
    else match source with
         | XStr s =>
             of_Outcome
               (retrieve_scm_from_koji_build urlparse nvr (Some s)
                  KOJI_BASE_URL)
         | _ => other_source nvr source KOJI_BASE_URL
         end.
Proof. intros Hlookup. unfold retrieve_scm_from_koji. by rewrite Hlookup. Qed.

(** X5: a protocol error or a socket error of the remote call reaches the
    caller as a connection error that quotes it; a fault of the remote
    call and the not-found error of a missing build pass unchanged. *)
Theorem X5_scm_from_koji_failures (nvr : string) :
  let call :=
    getBuild KOJI_BASE_URL (_requests_timeout Timeout REQUESTS_TIMEOUT) nvr in
  let r :=
    retrieve_scm_from_koji Timeout REQUESTS_TIMEOUT getBuild urlparse
      KOJI_BASE_URL other_source nvr in
  (∀ err,
     call = Raised (ProtocolError err) ∨ call = Raised (SocketError err)
     ∨ call = Raised (ConnectionError err) →
     r = Raised (ConnectionError ("Could not reach Koji: " +:+ err)))
  ∧ (∀ err, call = Raised (Fault err) → r = Raised (Fault err))
  ∧ (∀ build, call = Returned build → Value.truthy build = false →
       r = Raised (Exn (NotFound (not_found_message nvr KOJI_BASE_URL))))
  ∧ (∀ build, call = Returned build → Value.truthy build = true →
       (∀ fields, build ≠ XStruct fields) → r = Raised AttributeError).
Proof.
  intros call r. subst call r.
  unfold retrieve_scm_from_koji, retrieve_koji_task_id_and_source.
  split_and!.
  - intros err [-> | [-> | ->]]; reflexivity.
  - intros err ->. reflexivity.
  - intros build -> ->. reflexivity.
  - intros build -> -> Hshape. cbn [negb].
    destruct build as [| | | | | | | |fields]; try reflexivity.
    by destruct (Hshape fields).
Qed.

(** X6: for a build record that is a non-empty mapping, the resolver
    parses the string under [extra], [source], [original_url] when there
    is one, whatever the top-level [source] is; a false value there (nil,
    an empty string) gives the no-source error even when a top-level
    [source] exists; without the nested value the top-level [source] is
    parsed, and a record with neither gives the no-source error. *)
Theorem X6_scm_from_koji_source
    (nvr : string) (fields : list (string * xmlrpc_value)) :
  getBuild KOJI_BASE_URL (_requests_timeout Timeout REQUESTS_TIMEOUT) nvr
    = Returned (XStruct fields) →
  fields ≠ [] →
  let r :=
    retrieve_scm_from_koji Timeout REQUESTS_TIMEOUT getBuild urlparse
      KOJI_BASE_URL other_source nvr in
  let parsed (source : option string) :=
    of_Outcome
      (retrieve_scm_from_koji_build urlparse nvr source KOJI_BASE_URL) in
  let no_source :=
    Raised (Exn (NoSourceException (no_source_message nvr KOJI_BASE_URL))) in
  (∀ s, has_original_url fields (XStr s) → r = parsed (Some s))
  ∧ (∀ v, has_original_url fields v → Value.truthy v = false →
       r = no_source)
  ∧ ((¬ ∃ v, has_original_url fields v) →
       (∀ s, Value.member fields "source" = Some (XStr s) →
          r = parsed (Some s))
       ∧ (Value.member fields "source" = None → r = no_source)).
Proof.
  intros Hbuild Hne r parsed no_source. subst r parsed no_source.
  pose proof (koji_lookup_struct Timeout REQUESTS_TIMEOUT getBuild nvr
                KOJI_BASE_URL fields Hbuild Hne) as Hlookup.
  assert (Hstr : ∀ s,
    (if negb (Value.truthy (XStr s))
     then of_Outcome
            (retrieve_scm_from_koji_build urlparse nvr None KOJI_BASE_URL)
     else of_Outcome
            (retrieve_scm_from_koji_build urlparse nvr (Some s)
               KOJI_BASE_URL))
    = of_Outcome
        (retrieve_scm_from_koji_build urlparse nvr (Some s) KOJI_BASE_URL)).
  { intros s. cbn [Value.truthy].
    destruct (Py.truthy_str s) eqn:Hs; [done|].
    apply truthy_str_false in Hs as ->. cbn [negb].
    by rewrite scm_of_empty_source. }
  split_and!.
  - intros s Hs. apply original_url_nested in Hs. rewrite Hs in Hlookup.
    rewrite (scm_from_koji_returned _ _ _ Hlookup). apply Hstr.
  - intros v Hv Hfalse. apply original_url_nested in Hv.
    rewrite Hv in Hlookup.
    rewrite (scm_from_koji_returned _ _ _ Hlookup), Hfalse. reflexivity.
  - intros Hnone.
    assert (Hfallback : original_url (XStruct fields) = inl
              (default XNone (Value.member fields "source"))
            ∨ ∃ e, original_url (XStruct fields) = inr e).
    { destruct (original_url (XStruct fields)) as [v|e] eqn:Hv; [|eauto].
      destruct Hnone. exists v. by apply original_url_nested. }
    destruct Hfallback as [Hv | [e Hv]]; rewrite Hv in Hlookup;
      rewrite (scm_from_koji_returned _ _ _ Hlookup).
    + split.
      * intros s ->. apply Hstr.
      * intros ->. reflexivity.
    + split.
      * intros s ->. apply Hstr.
      * intros ->. reflexivity.
Qed.

End ScmFromKoji_properties.

Lemma X5_scm_from_koji_failures_witness :
  retrieve_scm_from_koji unit (inl tt)
    (fun _ _ _ => Raised (SocketError "timed out"))
    urllib_parse.urlparse "https://koji.example.org/kojihub"
    (fun _ _ _ => Raised AttributeError) "bash-5.1-2.fc34"
  = Raised (ConnectionError "Could not reach Koji: timed out").
Proof.
  apply (X5_scm_from_koji_failures unit (inl tt)
           (fun _ _ _ => Raised (SocketError "timed out"))
           urllib_parse.urlparse "https://koji.example.org/kojihub"
           (fun _ _ _ => Raised AttributeError) "bash-5.1-2.fc34").
  right. left. reflexivity.
Defined.

Lemma X6_scm_from_koji_source_witness :
  retrieve_scm_from_koji unit (inl tt)
    (fun _ _ _ =>
       Returned (XStruct
         [("task_id", XInt 42);
          ("source", XStr "git://old.example.org/bash#0");
          ("extra",
           XStruct [("source",
                     XStruct [("original_url",
                               XStr "git+https://src.example.org/rpms/bash.git#deadbeef")])])]))
    urllib_parse.urlparse "https://koji.example.org/kojihub"
    (fun _ _ _ => Raised AttributeError) "bash-5.1-2.fc34"
  = Returned ("rpms", "bash", "deadbeef").
Proof.
  destruct (X6_scm_from_koji_source unit (inl tt)
    (fun _ _ _ =>
       Returned (XStruct
         [("task_id", XInt 42);
          ("source", XStr "git://old.example.org/bash#0");
          ("extra",
           XStruct [("source",
                     XStruct [("original_url",
                               XStr "git+https://src.example.org/rpms/bash.git#deadbeef")])])]))
    urllib_parse.urlparse "https://koji.example.org/kojihub"
    (fun _ _ _ => Raised AttributeError) "bash-5.1-2.fc34" _
    eq_refl ltac:(discriminate)) as [Hstr _].
  etrans;
    [apply (Hstr "git+https://src.example.org/rpms/bash.git#deadbeef")
    |reflexivity].
  eexists _, _. split; [reflexivity|]. split; reflexivity.
Defined.

(* ===================================================================== *)
(** * More on the remote policy fetcher *)
(* ===================================================================== *)

(** X7: the fetcher issues the GET if and only if the HEAD was answered
    with status 200, and never more than these two requests; it returns a
    body exactly when the HEAD was answered 200 and the GET was answered
    with a status outside 400..599, and [None] exactly when the HEAD was
    answered 404; a transport failure of the HEAD is raised as it is. *)
Theorem X7_remote_rule_requests
    (web : Method → string → Outcome (Response string))
    (url : string) (log : list (Method * string)) :
  let call := retrieve_yaml_remote_rule web url log in
  let head_ok := ∃ head, web HEAD url = Ok head ∧ status_code head = 200 in
  (head_ok → call.2 = log ++ [(HEAD, url); (GET, url)])
  ∧ (¬ head_ok → call.2 = log ++ [(HEAD, url)])
  ∧ (∀ content,
       call.1 = Ok (Some content) ↔
       head_ok ∧ ∃ get, web GET url = Ok get
                        ∧ (400 <=? status_code get) && (status_code get <? 600)
                          = false
                        ∧ body get = content)
  ∧ (call.1 = Ok None ↔
       ∃ head, web HEAD url = Ok head ∧ status_code head = 404)
  ∧ (∀ e, web HEAD url = Raise e → call.1 = Raise e).
Proof.
  intros call head_ok. subst call head_ok.
  unfold retrieve_yaml_remote_rule, request, raise_for_status.
  run_M.
  destruct (web HEAD url) as [head|e] eqn:Hhead.
  - destruct (Z.eqb_spec (status_code head) 404) as [H404|H404].
    + cbn [fst snd]. split_and!; naive_solver lia.
    + destruct (Z.eqb_spec (status_code head) 200) as [H200|H200];
        cbn [negb].
      * rewrite <- (assoc_L (++)). cbn [app].
        destruct (web GET url) as [get|e] eqn:Hget;
          [destruct ((400 <=? status_code get) && (status_code get <? 600))
             eqn:Hstatus|];
          cbn [fst snd]; split_and!; naive_solver lia.
      * cbn [fst snd]. split_and!; naive_solver lia.
  - cbn [fst snd]. split_and!; naive_solver.
Qed.

Lemma X7_remote_rule_requests_witness :
  (retrieve_yaml_remote_rule
     (fun method _ =>
        match method with
        | HEAD => Ok {| status_code := 301; body := "" |}
        | GET => Ok {| status_code := 200; body := "--- !Policy" |}
        end)
     "https://src.example.org/rpms/bash/raw/deadbeef/f/gating.yaml" []).2
  = [(HEAD, "https://src.example.org/rpms/bash/raw/deadbeef/f/gating.yaml")].
Proof.
  apply (X7_remote_rule_requests
     (fun method _ =>
        match method with
        | HEAD => Ok {| status_code := 301; body := "" |}
        | GET => Ok {| status_code := 200; body := "--- !Policy" |}
        end)
     "https://src.example.org/rpms/bash/raw/deadbeef/f/gating.yaml" []).
  intros (head & [= <-] & Hstatus). discriminate Hstatus.
Defined.

(* ===================================================================== *)
(** * More on the results retriever *)
(* ===================================================================== *)

Section ResultsRetriever_more.
Import ResultsRetriever.
Context {C : Type} `{ExternalCache C}.
Variable OUTCOMES_PASSED : list string.
Variable resultsdb :
  string → gmap string string → Outcome (Response (option (list Result))).

(** A call that no cache answers is the query to ResultsDB. *)
Lemma retrieve_all_miss (self : Retriever) (subject : Subject)
    (testcase : option string) (w : @World C) :
  (∀ results, ∃ b, _results_match_time self results = Ok b) →
  answered_from_cache self subject testcase w = false →
  _retrieve_all OUTCOMES_PASSED resultsdb self (subject, testcase) w
  = _query_upstream OUTCOMES_PASSED resultsdb self subject testcase
      (if Py.truthy testcase
       then Some (external_key subject (default "" testcase)) else None) w.
Proof.
  intros Htotal. unfold answered_from_cache. rewrite retrieve_all_run.
  destruct (Py.truthy testcase); [|done]. cbn [andb].
  destruct (cache w !! _) as [all_results|].
  - rewrite bool_decide_eq_true_2 by eauto. done.
  - rewrite bool_decide_eq_false_2 by (by intros [? ?]). cbn [orb].
    cbn zeta.
    destruct (cache_get _ _) as [[|result results]|]; try done.
    destruct (Htotal (result :: results)) as [b ->]. by intros ->.
Qed.

(** The loop over the queries when ResultsDB answers every one of them. *)
Lemma fetched_all_answered (self : Retriever) (params : gmap string string)
    (answer : gmap string string → list Result)
    (queries : list (gmap string string)) (results : list Result) :
  (∀ query, query ∈ queries →
     response_data
       (resultsdb (url self +:+ "/results/latest") (params ∪ query))
     = Ok (answer query)) →
  fetched resultsdb self params queries results
  = (Ok (results ++ mjoin (answer <$> queries)),
     (fun query => (url self +:+ "/results/latest", params ∪ query))
       <$> queries).
Proof.
  revert results. induction queries as [|query queries IH];
    intros results Hall.
  - cbn. by rewrite app_nil_r.
  - cbn [fetched]. rewrite (Hall query) by left.
    rewrite IH by (intros q Hq; apply Hall; by right).
    cbn. by rewrite (assoc_L (++)).
Qed.

(** X8: a call without a test case that succeeds leaves its merged results
    in the in-process cache under the subject; a call with a test case
    that follows is answered from there: it returns the results of that
    test case, in their order, without any request or cache write. *)
Theorem X8_in_process_cache_primed
    (self : Retriever) (subject : Subject) (unfiltered : option string)
    (testcase : string) (results : list Result) (w w1 : @World C) :
  Py.truthy unfiltered = false →
  testcase ≠ "" →
  _retrieve_all OUTCOMES_PASSED resultsdb self (subject, unfiltered) w
    = (Ok results, w1) →
  cache w1 !! (type subject, identifier subject) = Some results
  ∧ _retrieve_all OUTCOMES_PASSED resultsdb self (subject, Some testcase) w1
    = (Ok (filter (fun result => testcase_name result = testcase) results),
       w1)
  ∧ retrieve OUTCOMES_PASSED resultsdb self (subject, Some testcase) w1
    = (Ok (filter (fun result => result_id result ∉ ignore_ids self)
             (filter (fun result => testcase_name result = testcase)
                results)),
       w1).
Proof.
  intros Hunfiltered Htestcase.
  rewrite retrieve_all_run, Hunfiltered, query_upstream_run. cbn zeta.
  destruct (fetched _ _ _ _ _) as [[merged|e] issued]; cbn [fst snd];
    [|done].
  intros [= <- <-].
  assert (Hcache :
    cache (store_results OUTCOMES_PASSED subject unfiltered None merged
             (add_requests issued w))
    !! (type subject, identifier subject) = Some merged).
  { unfold store_results. rewrite Hunfiltered. cbn [negb Py.truthy andb].
    cbn [cache]. apply lookup_insert_eq. }
  assert (Hsecond : ∀ w',
    cache w' !! (type subject, identifier subject) = Some merged →
    _retrieve_all OUTCOMES_PASSED resultsdb self (subject, Some testcase) w'
    = (Ok (filter (fun result => testcase_name result = testcase) merged),
       w')).
  { intros w' Hw'. rewrite retrieve_all_run, Hw'.
    by rewrite (proj2 (truthy_str_true testcase) Htestcase : 
                  Py.truthy (Some testcase) = true). }
  split; [exact Hcache|]. split; [by apply Hsecond|].
  rewrite results_retrieve_run, (Hsecond _ Hcache). reflexivity.
Qed.

(** X9: a call that no cache answers, on a retriever set up by
    [__init__], issues one GET to [/results/latest] for each query of the
    subject, in their order, each with the parameters of the retriever
    laid over the query; when ResultsDB answers each of them with a status
    outside 400..599 and a data list, the call returns the lists
    concatenated in that order. *)
Theorem X9_queries_merged
    (ids : list Z) (when : option string) (base_url : string)
    (subject : Subject) (testcase : option string) (w : @World C)
    (status : gmap string string → Z)
    (answer : gmap string string → list Result) :
  let self := BaseRetriever.__init__ ids when base_url in
  let sent (query : gmap string string) :=
    query_params self testcase ∪ query in
  answered_from_cache self subject testcase w = false →
  (∀ query, query ∈ result_queries subject →
     resultsdb (base_url +:+ "/results/latest") (sent query)
       = Ok {| status_code := status query; body := Some (answer query) |}
     ∧ (400 <=? status query) && (status query <? 600) = false) →
  let call :=
    _retrieve_all OUTCOMES_PASSED resultsdb self (subject, testcase) w in
  call.1 = Ok (mjoin (answer <$> result_queries subject))
  ∧ requests call.2
    = requests w ++
      ((fun query => (base_url +:+ "/results/latest", sent query))
         <$> result_queries subject).
Proof.
  intros self sent Hmiss Hanswers call. subst call.
  rewrite retrieve_all_miss; [|  |exact Hmiss].
  2:{ intros results. subst self. rewrite results_match_time_init. eauto. }
  rewrite query_upstream_run. cbn zeta.
  rewrite (fetched_all_answered self (query_params self testcase) answer).
  - cbn [fst snd]. rewrite store_results_requests. done.
  - intros query Hq. destruct (Hanswers query Hq) as [Hanswer Hstatus].
    change (url self) with base_url. fold (sent query).
    rewrite Hanswer. unfold response_data. cbn [status_code body].
    by rewrite Hstatus.
Qed.

(** X10: in the parameters of a request the retriever's own keys win over
    the subject's query: [_distinct_on] is always the three dimensions,
    [since] is the bound when there is one, [testcases] is the test case
    when there is one; every other key, and these two when the retriever
    has no value for them, are sent as the query has them. *)
Theorem X10_query_parameters
    (self : Retriever) (testcase : option string)
    (query : gmap string string) (key : string) :
  let sent := query_params self testcase ∪ query in
  sent !! "_distinct_on" = Some "scenario,system_architecture,system_variant"
  ∧ (Py.truthy (since self) = true → sent !! "since" = since self)
  ∧ (Py.truthy (since self) = false → sent !! "since" = query !! "since")
  ∧ (Py.truthy testcase = true → sent !! "testcases" = testcase)
  ∧ (Py.truthy testcase = false →
       sent !! "testcases" = query !! "testcases")
  ∧ (key ≠ "_distinct_on" → key ≠ "since" → key ≠ "testcases" →
       sent !! key = query !! key).
Proof.
  intros sent. subst sent. unfold query_params.
  destruct (Py.truthy (since self)) eqn:Hsince;
    destruct (Py.truthy testcase) eqn:Htestcase;
    try (destruct (since self) as [bound|]; [|done]);
    try (destruct testcase as [name|]; [|done]);
    cbn [default];
    split_and!; intros; try done;
    rewrite lookup_union;
    repeat (rewrite lookup_insert_ne by done);
    rewrite ?lookup_insert_eq, ?lookup_singleton_eq;
    repeat (rewrite lookup_insert_ne by done);
    rewrite ?lookup_singleton_ne by done;
    rewrite ?lookup_empty;
    try (by destruct (query !! _)).
Qed.

(** The state after the query to ResultsDB, field by field. *)
Lemma query_upstream_state (self : Retriever) (subject : Subject)
    (testcase key : option string) (w : @World C) :
  let call :=
    _query_upstream OUTCOMES_PASSED resultsdb self subject testcase key w in
  let run := fetched resultsdb self (query_params self testcase)
               (result_queries subject) [] in
  call.1 = run.1
  ∧ requests call.2 = requests w ++ run.2
  ∧ (∀ e, run.1 = Raise e →
       cache call.2 = cache w ∧ external call.2 = external w
       ∧ writes call.2 = writes w)
  ∧ (∀ results, run.1 = Ok results →
       cache call.2
       = (if negb (Py.truthy testcase)
          then <[(type subject, identifier subject) := results]> (cache w)
          else cache w)
       ∧ (writes call.2 = writes w ∧ external call.2 = external w
          ∨ writes call.2 = writes w ++ [(default "" key, results)]
            ∧ external call.2
              = cache_set (external w) (default "" key) results)).
Proof.
  intros call run. subst call. rewrite query_upstream_run. cbn zeta.
  fold run. destruct run.1 as [results|e] eqn:Hrun; cbn [fst snd].
  - split; [done|]. split; [by rewrite store_results_requests|].
    split; [done|]. intros ? [= <-]. unfold store_results.
    destruct (negb (Py.truthy testcase));
      destruct (Py.truthy key && forallb _ results); cbn; eauto.
  - split; [done|]. split; [done|]. split; [|done]. by intros ? _.
Qed.

(** X11: when a call raises, whether ResultsDB failed, answered with an
    error status or without data, or the staleness check failed, nothing
    is stored: the in-process cache and the external cache are as before
    the call. *)
Theorem X11_failure_stores_nothing
    (self : Retriever) (subject : Subject) (testcase : option string)
    (w : @World C) (e : exn) :
  let call :=
    _retrieve_all OUTCOMES_PASSED resultsdb self (subject, testcase) w in
  call.1 = Raise e →
  cache call.2 = cache w
  ∧ external call.2 = external w
  ∧ writes call.2 = writes w.
Proof.
  intros call. subst call. rewrite retrieve_all_run.
  assert (Hmiss : ∀ key,
    (_query_upstream OUTCOMES_PASSED resultsdb self subject testcase key w).1
      = Raise e →
    let w' := (_query_upstream OUTCOMES_PASSED resultsdb self subject
                 testcase key w).2 in
    cache w' = cache w ∧ external w' = external w ∧ writes w' = writes w).
  { intros key Hraise.
    destruct (query_upstream_state self subject testcase key w)
      as (Hout & _ & Hfail & _).
    apply (Hfail e). by rewrite <- Hout. }
  destruct (Py.truthy testcase); [|apply Hmiss].
  destruct (cache w !! _) as [all_results|]; [done|]. cbn zeta.
  destruct (cache_get _ _) as [[|result results]|]; try apply Hmiss.
  destruct (_results_match_time self _) as [[|]|e']; [done|apply Hmiss|done].
Qed.

(** X12: a call with a test case never changes the in-process cache; no
    call changes the entry of another subject; and the records of the
    requests issued and of the entries written only grow. *)
Theorem X12_retrieve_all_frame
    (self : Retriever) (subject : Subject) (testcase : option string)
    (w : @World C) :
  let call :=
    _retrieve_all OUTCOMES_PASSED resultsdb self (subject, testcase) w in
  (Py.truthy testcase = true → cache call.2 = cache w)
  ∧ (∀ other, other ≠ (type subject, identifier subject) →
       cache call.2 !! other = cache w !! other)
  ∧ requests w `prefix_of` requests call.2
  ∧ writes w `prefix_of` writes call.2.
Proof.
  intros call. subst call. rewrite retrieve_all_run.
  assert (Hmiss : ∀ key,
    let w' := (_query_upstream OUTCOMES_PASSED resultsdb self subject
                 testcase key w).2 in
    (Py.truthy testcase = true → cache w' = cache w)
    ∧ (∀ other, other ≠ (type subject, identifier subject) →
         cache w' !! other = cache w !! other)
    ∧ requests w `prefix_of` requests w'
    ∧ writes w `prefix_of` writes w').
  { intros key.
    destruct (query_upstream_state self subject testcase key w)
      as (Hout & Hreq & Hfail & Hok).
    cbn zeta. rewrite Hreq.
    destruct (fetched _ _ _ _ _).1 as [results|e'].
    - destruct (Hok results eq_refl) as [Hcache Hwrites]. rewrite Hcache.
      split_and!.
      + by intros ->.
      + intros other Hother. destruct (negb _); [|done].
        by rewrite lookup_insert_ne.
      + by apply prefix_app_r.
      + destruct Hwrites as [[-> _]|[-> _]]; [done | by apply prefix_app_r].
    - destruct (Hfail e' eq_refl) as (-> & _ & ->).
      split_and!; try done. by apply prefix_app_r. }
  assert (Hsame : ∀ r : Outcome (list Result),
    (Py.truthy testcase = true → cache (r, w).2 = cache w)
    ∧ (∀ other, other ≠ (type subject, identifier subject) →
         cache (r, w).2 !! other = cache w !! other)
    ∧ requests w `prefix_of` requests (r, w).2
    ∧ writes w `prefix_of` writes (r, w).2) by done.
  destruct (Py.truthy testcase); [|apply Hmiss].
  destruct (cache w !! _) as [all_results|]; [apply Hsame|]. cbn zeta.
  destruct (cache_get _ _) as [[|result results]|]; try apply Hmiss.
  destruct (_results_match_time self _) as [[|]|e'];
    [apply Hsame | apply Hmiss | apply Hsame].
Qed.

(** X13: a call without a test case consults neither cache: from any two
    states it has the same outcome and issues the same requests, at least
    one when the subject has a query, and it leaves the external cache
    alone. *)
Theorem X13_unfiltered_call_queries
    (self : Retriever) (subject : Subject) (testcase : option string)
    (w w' : @World C) :
  Py.truthy testcase = false →
  let call :=
    _retrieve_all OUTCOMES_PASSED resultsdb self (subject, testcase) in
  (call w).1 = (call w').1
  ∧ (∃ issued,
       requests (call w).2 = requests w ++ issued
       ∧ requests (call w').2 = requests w' ++ issued
       ∧ (result_queries subject ≠ [] → issued ≠ []))
  ∧ external (call w).2 = external w
  ∧ writes (call w).2 = writes w.
Proof.
  intros Ht call. subst call. rewrite !retrieve_all_run, Ht.
  destruct (query_upstream_state self subject testcase None w)
    as (Hout & Hreq & Hfail & Hok).
  destruct (query_upstream_state self subject testcase None w')
    as (Hout' & Hreq' & _ & _).
  cbn zeta in *. rewrite Hout, Hout'. split; [done|].
  split.
  - eexists. split; [exact Hreq|]. split; [exact Hreq'|].
    apply fetched_issues_requests.
  - rewrite query_upstream_run. cbn zeta.
    destruct (fetched _ _ _ _ _) as [[results|e] issued]; cbn [fst snd];
      [|done].
    destruct (store_results_no_key OUTCOMES_PASSED subject testcase results
                (add_requests issued w)) as [-> ->].
    done.
Qed.

Lemma fetched_ext (self self' : Retriever) (params : gmap string string)
    (queries : list (gmap string string)) (results : list Result) :
  url self = url self' →
  fetched resultsdb self params queries results
  = fetched resultsdb self' params queries results.
Proof.
  intros Hurl. revert results.
  induction queries as [|query queries IH]; intros results; [done|].
  cbn [fetched]. rewrite Hurl.
  destruct (response_data _) as [data|e]; [|done]. by rewrite IH.
Qed.

(** A call reads of the retriever only its bound and its URL. *)
Lemma retrieve_all_ext (self self' : Retriever) (subject : Subject)
    (testcase : option string) (w : @World C) :
  since self = since self' → url self = url self' →
  _retrieve_all OUTCOMES_PASSED resultsdb self (subject, testcase) w
  = _retrieve_all OUTCOMES_PASSED resultsdb self' (subject, testcase) w.
Proof.
  intros Hsince Hurl.
  assert (Hmiss : ∀ key,
    _query_upstream OUTCOMES_PASSED resultsdb self subject testcase key w
    = _query_upstream OUTCOMES_PASSED resultsdb self' subject testcase key w).
  { intros key. rewrite !query_upstream_run. cbn zeta.
    assert (query_params self testcase = query_params self' testcase) as ->
      by (unfold query_params; by rewrite Hsince).
    by rewrite (fetched_ext self self' _ _ _ Hurl). }
  assert (Htime : ∀ results,
    _results_match_time self results = _results_match_time self' results)
    by (intros results; unfold _results_match_time; by rewrite Hsince).
  rewrite !retrieve_all_run.
  destruct (Py.truthy testcase); [|apply Hmiss].
  destruct (cache w !! _); [done|]. cbn zeta.
  rewrite !Hmiss.
  destruct (cache_get _ _) as [[|result results]|]; try done.
  by rewrite Htime.
Qed.

(** X14: what a call fetches, returns before the filter, and stores does
    not depend on [ignore_ids]: results with an ignored id are left out of
    the output of [retrieve] only, and are cached like the others. *)
Theorem X14_ignore_ids_not_cached
    (ids ids' : list Z) (when : option string) (base_url : string)
    (subject : Subject) (testcase : option string) (w : @World C) :
  let self := BaseRetriever.__init__ ids when base_url in
  let self' := BaseRetriever.__init__ ids' when base_url in
  _retrieve_all OUTCOMES_PASSED resultsdb self (subject, testcase) w
  = _retrieve_all OUTCOMES_PASSED resultsdb self' (subject, testcase) w
  ∧ (retrieve OUTCOMES_PASSED resultsdb self (subject, testcase) w).2
    = (retrieve OUTCOMES_PASSED resultsdb self' (subject, testcase) w).2
  ∧ (∀ results,
       (_retrieve_all OUTCOMES_PASSED resultsdb self (subject, testcase) w).1
         = Ok results →
       Py.truthy testcase = false →
       cache
         (retrieve OUTCOMES_PASSED resultsdb self (subject, testcase) w).2
       !! (type subject, identifier subject) = Some results).
Proof.
  intros self self'.
  assert (Hext :
    _retrieve_all OUTCOMES_PASSED resultsdb self (subject, testcase) w
    = _retrieve_all OUTCOMES_PASSED resultsdb self' (subject, testcase) w)
    by (by apply retrieve_all_ext).
  split; [exact Hext|]. split.
  - by rewrite !results_retrieve_run, Hext.
  - intros results Hok Ht. rewrite results_retrieve_run. cbn [snd].
    revert Hok. rewrite retrieve_all_run, Ht.
    destruct (query_upstream_state self subject testcase None w)
      as (Hout & _ & _ & Hstored).
    cbn zeta in *. rewrite Hout. intros Hrun.
    destruct (Hstored results Hrun) as [-> _]. rewrite Ht. cbn [negb].
    apply lookup_insert_eq.
Qed.

Lemma append_inv_head (a b c : string) : a +:+ b = a +:+ c → b = c.
Proof. induction a as [|x a IH]; simpl; [done|]. intros [= ?]. by apply IH. Qed.

Lemma append_sep_inj (sep : ascii) (a a' b b' : string) :
  Py.contains sep a = false → Py.contains sep a' = false →
  a +:+ String sep b = a' +:+ String sep b' → a = a' ∧ b = b'.
Proof.
  revert a'. induction a as [|x a IH]; intros [|x' a']; simpl.
  - intros _ _ [= ->]. done.
  - intros _ [Hx' _]%orb_false_elim [= <- _].
    by rewrite Ascii.eqb_refl in Hx'.
  - intros [Hx _]%orb_false_elim _ [= -> _].
    by rewrite Ascii.eqb_refl in Hx.
  - intros [_ Ha]%orb_false_elim [_ Ha']%orb_false_elim [= -> Heq].
    destruct (IH a' Ha Ha' Heq) as [-> ->]. done.
Qed.

(** X15: the keys of the external cache do not collide: for subject types
    and identifiers without a space, equal keys mean the same type, the
    same identifier and the same test case. *)
Theorem X15_external_key_injective
    (subject subject' : Subject) (testcase testcase' : string) :
  Py.contains " " (type subject) = false →
  Py.contains " " (type subject') = false →
  Py.contains " " (identifier subject) = false →
  Py.contains " " (identifier subject') = false →
  external_key subject testcase = external_key subject' testcase' →
  type subject = type subject'
  ∧ identifier subject = identifier subject'
  ∧ testcase = testcase'.
Proof.
  intros Ht Ht' Hi Hi' Hkey. unfold external_key in Hkey.
  apply append_inv_head in Hkey.
  change (type subject +:+ String " " (identifier subject +:+
            String " " testcase)
          = type subject' +:+ String " " (identifier subject' +:+
              String " " testcase')) in Hkey.
  apply append_sep_inj in Hkey as [Htype Hrest]; [|done..].
  apply append_sep_inj in Hrest as [Hid Htest]; done.
Qed.

(** X16: the staleness check takes as upper edge the second of the fields
    of the bound between commas.  For a bound without a comma it raises
    [IndexError]; for a retriever set up by [__init__] it never raises,
    and a cutoff that itself contains a comma counts only up to its first
    comma. *)
Theorem X16_staleness_upper_edge
    (self : Retriever) (ids : list Z) (base_url : string)
    (results : list Result) :
  (∀ bound, since self = Some bound → bound ≠ "" →
     Py.contains "," bound = false →
     _results_match_time self results = Raise IndexError)
  ∧ (∀ when, ∃ accepted,
       _results_match_time (BaseRetriever.__init__ ids when base_url) results
       = Ok accepted)
  ∧ (∀ first rest, first ≠ "" → Py.contains "," first = false →
       _results_match_time
         (BaseRetriever.__init__ ids (Some (first +:+ "," +:+ rest)) base_url)
         results
       = Ok (forallb
               (fun result => String.ltb (submit_time result) first)
               results)).
Proof.
  split_and!.
  - intros bound Hsince Hne Hcomma. unfold _results_match_time.
    rewrite Hsince.
    change (Py.truthy (Some bound)) with (Py.truthy_str bound).
    rewrite (proj2 (truthy_str_true bound) Hne). cbn [negb].
    change (default "" (Some bound)) with bound.
    by rewrite (split_without_separator _ _ Hcomma).
  - intros when. rewrite results_match_time_init. eauto.
  - intros first rest Hne Hcomma. rewrite results_match_time_init.
    assert (Py.truthy (Some (first +:+ "," +:+ rest)) = true) as ->.
    { apply truthy_str_true. intros Heq. by destruct first. }
    change (default "" (Some (first +:+ "," +:+ rest)))
      with (first +:+ String "," rest).
    rewrite split_app_sep, (split_without_separator _ _ Hcomma).
    reflexivity.
Qed.

Lemma fetched_until_failure (self : Retriever) (params : gmap string string)
    (answer : gmap string string → list Result)
    (before after : list (gmap string string)) (failing : gmap string string)
    (results : list Result) (e : exn) :
  (∀ query, query ∈ before →
     response_data
       (resultsdb (url self +:+ "/results/latest") (params ∪ query))
     = Ok (answer query)) →
  response_data
    (resultsdb (url self +:+ "/results/latest") (params ∪ failing))
  = Raise e →
  fetched resultsdb self params (before ++ failing :: after) results
  = (Raise e,
     (fun query => (url self +:+ "/results/latest", params ∪ query))
       <$> (before ++ [failing])).
Proof.
  intros Hbefore Hfailing. revert results Hbefore.
  induction before as [|query before IH]; intros results Hbefore.
  - cbn [app fetched]. by rewrite Hfailing.
  - cbn [app fetched]. rewrite (Hbefore query) by left.
    rewrite IH by (intros q Hq; apply Hbefore; by right). done.
Qed.

(** X19: the queries of a subject are sent one after the other and the
    first one that fails ends the call: its exception is raised, be it a
    transport failure, an error status or an answer without data, and no
    request is issued for the queries after it. *)
Theorem X19_queries_stop_at_failure
    (ids : list Z) (when : option string) (base_url : string)
    (subject : Subject) (testcase : option string) (w : @World C)
    (before after : list (gmap string string)) (failing : gmap string string)
    (answer : gmap string string → list Result) (e : exn) :
  let self := BaseRetriever.__init__ ids when base_url in
  let target := base_url +:+ "/results/latest" in
  let sent (query : gmap string string) :=
    query_params self testcase ∪ query in
  answered_from_cache self subject testcase w = false →
  result_queries subject = before ++ failing :: after →
  (∀ query, query ∈ before →
     response_data (resultsdb target (sent query)) = Ok (answer query)) →
  response_data (resultsdb target (sent failing)) = Raise e →
  let call :=
    _retrieve_all OUTCOMES_PASSED resultsdb self (subject, testcase) w in
  call.1 = Raise e
  ∧ requests call.2
    = requests w ++
      ((fun query => (target, sent query)) <$> (before ++ [failing])).
Proof.
  intros self target sent Hmiss Hqueries Hbefore Hfailing call. subst call.
  rewrite retrieve_all_miss; [|  |exact Hmiss].
  2:{ intros results. subst self. rewrite results_match_time_init. eauto. }
  rewrite query_upstream_run, Hqueries. cbn zeta.
  rewrite (fetched_until_failure self (query_params self testcase) answer
             before after failing [] e Hbefore Hfailing).
  done.
Qed.

End ResultsRetriever_more.

(* ===================================================================== *)
(** * More on the waivers retriever *)
(* ===================================================================== *)

Lemma updated_heap_idempotent (since : string)
    (filters : list WaiversRetriever.ref)
    (h : gmap WaiversRetriever.ref (gmap string string)) :
  WaiversRetriever.updated_heap since filters
    (WaiversRetriever.updated_heap since filters h)
  = WaiversRetriever.updated_heap since filters h.
Proof.
  apply map_eq. intros r. rewrite !updated_heap_lookup.
  destruct (decide (r ∈ filters)); [|done].
  destruct (h !! r) as [d|]; [|done]. cbn. by rewrite insert_insert_eq.
Qed.

(** X17: a second call with the same filters finds them already updated:
    it leaves every mapping as the first call left it, posts the same
    filters to the same address, and, WaiverDB answering alike, has the
    same outcome. *)
Theorem X17_waivers_second_call
    (waiverdb : string → list (gmap string string)
                → Outcome (Response (option (list Waiver))))
    (self : Retriever) (filters : list WaiversRetriever.ref)
    (w : WaiversRetriever.World) :
  let first := WaiversRetriever.retrieve waiverdb self filters w in
  let second := WaiversRetriever.retrieve waiverdb self filters first.2 in
  WaiversRetriever.heap second.2 = WaiversRetriever.heap first.2
  ∧ second.1 = first.1
  ∧ ∃ target sent,
      WaiversRetriever.posts first.2
        = WaiversRetriever.posts w ++ [(target, sent)]
      ∧ WaiversRetriever.posts second.2
        = WaiversRetriever.posts first.2 ++ [(target, sent)].
Proof.
  intros first second.
  pose proof (waivers_retrieve_state waiverdb self filters w) as Hfirst.
  cbn zeta in Hfirst. fold first in Hfirst.
  pose proof (waivers_retrieve_state waiverdb self filters first.2)
    as Hsecond.
  cbn zeta in Hsecond. fold second in Hsecond.
  assert (Hheap :
    WaiversRetriever.heap
      (WaiversRetriever.before_post self filters first.2)
    = WaiversRetriever.heap (WaiversRetriever.before_post self filters w)).
  { rewrite Hfirst. unfold WaiversRetriever.before_post.
    destruct (Py.truthy (since self)); [|done].
    cbn [WaiversRetriever.heap]. apply updated_heap_idempotent. }
  split_and!.
  - rewrite Hsecond. cbn [WaiversRetriever.heap]. rewrite Hheap.
    by rewrite Hfirst.
  - unfold second. rewrite (waivers_retrieve_run waiverdb self filters first.2).
    cbn zeta. rewrite Hheap.
    unfold first. rewrite (waivers_retrieve_run waiverdb self filters w).
    cbn zeta.
    destruct (waiverdb _ _) as [response|e]; [|done].
    destruct (_ && _); [done|]. by destruct (body response).
  - eexists _, _. split; [by rewrite Hfirst|].
    rewrite Hsecond. cbn [WaiversRetriever.posts]. by rewrite Hheap.
Qed.

(** X18: every call issues exactly one POST to [/waivers/+filtered]; a
    transport failure is raised as it is, an answer with a status in
    400..599 raises the HTTP error with that status, an answer without a
    data list raises the decoding error, and the call returns in the
    remaining case only. *)
Theorem X18_waivers_failures
    (waiverdb : string → list (gmap string string)
                → Outcome (Response (option (list Waiver))))
    (self : Retriever) (filters : list WaiversRetriever.ref)
    (w : WaiversRetriever.World) :
  let call := WaiversRetriever.retrieve waiverdb self filters w in
  ∃ sent,
    WaiversRetriever.posts call.2
      = WaiversRetriever.posts w ++ [(url self +:+ "/waivers/+filtered", sent)]
    ∧ (∀ e, waiverdb (url self +:+ "/waivers/+filtered") sent = Raise e →
         call.1 = Raise e)
    ∧ (∀ response,
         waiverdb (url self +:+ "/waivers/+filtered") sent = Ok response →
         let failed :=
           (400 <=? status_code response) && (status_code response <? 600) in
         (failed = true → call.1 = Raise (HTTPError (status_code response)))
         ∧ (failed = false → body response = None →
            call.1 = Raise DecodeError)
         ∧ (returns call.1 ↔ failed = false ∧ is_Some (body response))).
Proof.
  intros call. subst call. rewrite waivers_retrieve_run. cbn zeta.
  set (sent := (fun r => default ∅
                  (WaiversRetriever.heap
                     (WaiversRetriever.before_post self filters w) !! r))
               <$> filters).
  exists sent. unfold returns.
  destruct (waiverdb (url self +:+ "/waivers/+filtered") sent)
    as [response|e] eqn:Hdb.
  - destruct ((400 <=? status_code response) && (status_code response <? 600))
      eqn:Hstatus.
    + cbn [fst snd]. split_and!; [done|done|].
      intros response' [= <-]. cbn zeta. rewrite Hstatus.
      split_and!; [done|done|]. split; [by intros [? ?] | by intros [? _]].
    + destruct (body response) as [waivers|] eqn:Hbody; cbn [fst snd].
      * split_and!; [done|done|].
        intros response' [= <-]. cbn zeta. rewrite Hstatus, Hbody.
        split_and!; [done|done|]. split; [eauto | eauto].
      * split_and!; [done|done|].
        intros response' [= <-]. cbn zeta. rewrite Hstatus, Hbody.
        split_and!; [done|done|].
        split; [by intros [? ?] | by intros [_ [? ?]]].
  - cbn [fst snd]. split_and!; [done| |done]. by intros ? [= <-].
Qed.

Lemma X8_in_process_cache_primed_witness :
  let failed := Examples.rpmdeplint 7 "FAILED" "2021-03-01T00:00:00.000000" in
  let other :=
    {| result_id := 8; testcase_name := "dist.abicheck";
       outcome := Some "PASSED";
       submit_time := "2021-03-01T00:00:01.000000"; result_rest := [] |} in
  let self := BaseRetriever.__init__ [] None Examples.resultsdb_url in
  let first :=
    ResultsRetriever._retrieve_all Examples.OUTCOMES_PASSED
      (Examples.answering [failed; other]) self (Examples.bash, None)
      (Examples.world ∅ ∅) in
  ResultsRetriever._retrieve_all Examples.OUTCOMES_PASSED
    (Examples.answering [failed; other]) self
    (Examples.bash, Some "dist.abicheck") first.2
  = (Ok [other], first.2).
Proof.
  intros failed other self first.
  destruct (X8_in_process_cache_primed Examples.OUTCOMES_PASSED
              (Examples.answering [failed; other]) self Examples.bash None
              "dist.abicheck" [failed; other] (Examples.world ∅ ∅) first.2
              eq_refl ltac:(discriminate) eq_refl) as (_ & Hsecond & _).
  exact Hsecond.
Defined.

Lemma X9_queries_merged_witness :
  let passing := Examples.rpmdeplint 7 "PASSED" "2021-03-01T00:00:00.000000" in
  (ResultsRetriever._retrieve_all Examples.OUTCOMES_PASSED
     (Examples.answering [passing])
     (BaseRetriever.__init__ [] None Examples.resultsdb_url)
     (Examples.bash, Some "dist.rpmdeplint") (Examples.world ∅ ∅)).1
  = Ok [passing].
Proof.
  intros passing.
  assert (Hmiss :
    ResultsRetriever.answered_from_cache
      (BaseRetriever.__init__ [] None Examples.resultsdb_url) Examples.bash
      (Some "dist.rpmdeplint") (Examples.world ∅ ∅) = false)
    by (vm_compute; reflexivity).
  destruct (X9_queries_merged Examples.OUTCOMES_PASSED
              (Examples.answering [passing]) [] None Examples.resultsdb_url
              Examples.bash (Some "dist.rpmdeplint") (Examples.world ∅ ∅)
              (fun _ => 200) (fun _ => [passing])
              Hmiss (fun _ _ => conj eq_refl eq_refl)) as [Hout _].
  exact Hout.
Defined.

Lemma X11_failure_stores_nothing_witness :
  ResultsRetriever.cache
    (ResultsRetriever._retrieve_all Examples.OUTCOMES_PASSED
       Examples.unreachable
       (BaseRetriever.__init__ [] None Examples.resultsdb_url)
       (Examples.bash, None) (Examples.world ∅ ∅)).2
  = ∅.
Proof.
  destruct (X11_failure_stores_nothing Examples.OUTCOMES_PASSED
              Examples.unreachable
              (BaseRetriever.__init__ [] None Examples.resultsdb_url)
              Examples.bash None (Examples.world ∅ ∅)
              (TransportError "connection refused") eq_refl)
    as (Hcache & _).
  exact Hcache.
Defined.

Lemma X13_unfiltered_call_queries_witness :
  let passing := Examples.rpmdeplint 7 "PASSED" "2021-03-01T00:00:00.000000" in
  let self := BaseRetriever.__init__ [] None Examples.resultsdb_url in
  (ResultsRetriever._retrieve_all Examples.OUTCOMES_PASSED
     (Examples.answering [passing]) self (Examples.bash, None)
     (Examples.world ∅ ∅)).1
  = (ResultsRetriever._retrieve_all Examples.OUTCOMES_PASSED
       (Examples.answering [passing]) self (Examples.bash, None)
       (Examples.world {[ ("koji_build", "bash-5.1-2.fc34") := [] ]} ∅)).1.
Proof.
  intros passing self.
  destruct (X13_unfiltered_call_queries Examples.OUTCOMES_PASSED
              (Examples.answering [passing]) self Examples.bash None
              (Examples.world ∅ ∅)
              (Examples.world {[ ("koji_build", "bash-5.1-2.fc34") := [] ]} ∅)
              eq_refl) as [Hsame _].
  exact Hsame.
Defined.

Lemma X15_external_key_injective_witness :
  type Examples.bash = "koji_build"
  ∧ identifier Examples.bash = "bash-5.1-2.fc34"
  ∧ "dist.rpmdeplint" = "dist.rpmdeplint".
Proof.
  exact (X15_external_key_injective Examples.bash
           {| type := "koji_build"; identifier := "bash-5.1-2.fc34";
              result_queries := [] |}
           "dist.rpmdeplint" "dist.rpmdeplint"
           eq_refl eq_refl eq_refl eq_refl eq_refl).
Defined.

Lemma X19_queries_stop_at_failure_witness :
  let two_queries :=
    {| type := "koji_build"; identifier := "bash-5.1-2.fc34";
       result_queries :=
         [ {[ "type" := "koji_build" ]}; {[ "type" := "brew-build" ]} ] |} in
  length
    (ResultsRetriever.requests
       (ResultsRetriever._retrieve_all Examples.OUTCOMES_PASSED
          Examples.unreachable
          (BaseRetriever.__init__ [] None Examples.resultsdb_url)
          (two_queries, None) (Examples.world ∅ ∅)).2)
  = 1%nat.
Proof.
  intros two_queries.
  assert (Hmiss :
    ResultsRetriever.answered_from_cache
      (BaseRetriever.__init__ [] None Examples.resultsdb_url) two_queries
      None (Examples.world ∅ ∅) = false)
    by (vm_compute; reflexivity).
  destruct (X19_queries_stop_at_failure Examples.OUTCOMES_PASSED
              Examples.unreachable [] None Examples.resultsdb_url
              two_queries None (Examples.world ∅ ∅)
              [] [ {[ "type" := "brew-build" ]} ] {[ "type" := "koji_build" ]}
              (fun _ => []) (TransportError "connection refused")
              Hmiss eq_refl
              (fun query Hin => False_ind _ (not_elem_of_nil query Hin))
              eq_refl) as [_ Hrequests].
  rewrite Hrequests. reflexivity.
Defined.
